(** * Biblioteca: the sqlite3 and pymongo exercises of tema 3 (3a)

    A shallow embedding of [ej3a1.py], [ej3a2.py] and [ej3a4.py].  The
    Python functions are state-passing programs over a model of the two
    storage engines: a [sqlite3] connection with its pending transaction,
    and a [pymongo] database with its collections of documents.  What a
    function prints is part of the state, because several functions
    report their outcome only on the console. *)

From stdpp Require Import base option list strings pretty gmap sorting.
From Stdlib Require Import ZArith Lia.

Local Open Scope Z_scope.

(** ** Python control: results, exceptions, console *)

(** The classes of exception the three scripts can meet.  [SqliteError]
    stands for [sqlite3.Error] and its subclasses, [PyMongoError] for the
    driver's errors; [str e] is the message carried. *)
Inductive clase_sqlite := OperationalError | IntegrityError | DatabaseError.

Inductive excepcion :=
  | SqliteError (cl : clase_sqlite) (msg : string)
  | PyMongoError (msg : string)
  | FileNotFoundError (msg : string)
  | AttributeError (msg : string)
  | TypeError (msg : string)
  | KeyError (msg : string).

Definition str_excepcion (e : excepcion) : string :=
  match e with
  | SqliteError _ m | PyMongoError m | FileNotFoundError m
  | AttributeError m | TypeError m | KeyError m => m
  end.

(** [except sqlite3.Error] and [except Exception]. *)
Definition es_sqlite3_Error (e : excepcion) : bool :=
  match e with SqliteError _ _ => true | _ => false end.

Definition es_Exception (e : excepcion) : bool := true.

Inductive resultado (A : Type) :=
  | Devuelve (a : A)
  | Lanza (e : excepcion).
Arguments Devuelve {A} a.
Arguments Lanza {A} e.

(** The state a function runs in: the storage engine behind the handle
    it was given ([motor]) and the lines printed so far ([salida]). *)
Record mundo (B : Type) := Mundo { motor : B; salida : list string }.
Arguments Mundo {B} motor salida.
Arguments motor {B} m.
Arguments salida {B} m.

Definition M (B A : Type) : Type := mundo B → resultado A * mundo B.

#[global] Instance M_ret {B} : MRet (M B) := λ A a w, (Devuelve a, w).
#[global] Instance M_bind {B} : MBind (M B) := λ A C f m w,
  match m w with
  | (Devuelve a, w') => f a w'
  | (Lanza e, w') => (Lanza e, w')
  end.

Definition lanzar {B A} (e : excepcion) : M B A := λ w, (Lanza e, w).

Definition print {B} (linea : string) : M B unit := λ w,
  (Devuelve tt, Mundo (motor w) (salida w ++ [linea])).

(** Reading and replacing the engine state. *)
Definition leer {B} : M B B := λ w, (Devuelve (motor w), w).
Definition poner {B} (b : B) : M B unit := λ w, (Devuelve tt, Mundo b (salida w)).

(** [try: cuerpo / except <clase> as e: manejador e]. *)
Definition try_except {B A} (cuerpo : M B A)
    (clase : excepcion → bool) (manejador : excepcion → M B A) : M B A := λ w,
  match cuerpo w with
  | (Lanza e, w') => if clase e then manejador e w' else (Lanza e, w')
  | r => r
  end.

(** [for x in xs: cuerpo x]. *)
Fixpoint for_each {B X} (xs : list X) (cuerpo : X → M B unit) : M B unit :=
  match xs with
  | [] => mret tt
  | x :: xs' => cuerpo x ;; for_each xs' cuerpo
  end.

(** [str] of an [int], and of an optional [int] ([None] prints as None). *)
Definition str_int (z : Z) : string := pretty z.
Definition str_opt_int (o : option Z) : string :=
  match o with Some z => str_int z | None => "None" end.

(** ** The sqlite3 engine *)

Module Sqlite.

(** Rows of the two tables of the library schema.  [anio] and
    [autor_id] are nullable; [titulo] and [nombre] are NOT NULL. *)
Record autor := Autor { a_id : Z; a_nombre : string }.
Record libro := Libro {
  l_id : Z; l_titulo : string; l_anio : option Z; l_autor_id : option Z }.

(** A table: its rows in rowid order of insertion, and the AUTOINCREMENT
    high-water mark kept in [sqlite_sequence]. *)
Record tabla (F : Type) := Tabla { filas : list F; secuencia : Z }.
Arguments Tabla {F} filas secuencia.
Arguments filas {F} t.
Arguments secuencia {F} t.

(** A database: each table exists or not. *)
Record bd := Bd { autores : option (tabla autor); libros : option (tabla libro) }.

Definition bd_vacia : bd := Bd None None.

(** A connection.  [disco] is the durable, committed database;
    [pendiente] is the working copy of the open transaction, if one is
    open; [fallos] is the plan of engine faults: each round trip to the
    engine takes the head of the list and fails when it is [true] (an
    empty plan is a healthy engine). *)
Record conexion := Conexion {
  disco : bd; pendiente : option bd; fallos : list bool }.

(** What a statement run on the connection sees. *)
Definition vista (c : conexion) : bd := default (disco c) (pendiente c).

Definition max_rowid : Z := 9223372036854775807.

(** What the engine reports when a statement fails: the class of
    [sqlite3.Error] raised for it, and the message. *)
Definition error_sql : Type := clase_sqlite * string.

Definition raise_sql {A} (e : error_sql) : M conexion A :=
  lanzar (SqliteError e.1 e.2).

Definition sin_tabla {A} (nombre : string) : error_sql + A :=
  inl (OperationalError, "no such table: " +:+ nombre).

(** *** Denotations of the SQL statements the scripts issue.
    Each maps a database to an error or to the new database with the
    statement's result. *)

Definition crear_tabla {F} (t : option (tabla F)) : option (tabla F) :=
  match t with Some _ => t | None => Some (Tabla [] 0) end.

(** [CREATE TABLE IF NOT EXISTS autores (...)] *)
Definition sql_create_autores (d : bd) : bd :=
  Bd (crear_tabla (autores d)) (libros d).

(** [CREATE TABLE IF NOT EXISTS libros (...)] *)
Definition sql_create_libros (d : bd) : bd :=
  Bd (autores d) (crear_tabla (libros d)).

(** The rowid AUTOINCREMENT assigns: one more than the largest rowid
    the table ever held. *)
Definition nuevo_rowid (ids : list Z) (sec : Z) : Z :=
  foldr Z.max sec ids + 1.

(** [INSERT INTO autores (nombre) VALUES (?)]; the result is
    [lastrowid]. *)
Definition sql_insert_autor (nombre : option string) (d : bd)
    : error_sql + bd * Z :=
  match autores d with
  | None => sin_tabla "autores"
  | Some t =>
    match nombre with
    | None => inl (IntegrityError, "NOT NULL constraint failed: autores.nombre")
    | Some n =>
      let id := nuevo_rowid (a_id <$> filas t) (secuencia t) in
      if decide (max_rowid < id)
      then inl (DatabaseError, "database or disk is full")
      else inr (Bd (Some (Tabla (filas t ++ [Autor id n]) id)) (libros d), id)
    end
  end.

(** [INSERT INTO libros (titulo, anio, autor_id) VALUES (?, ?, ?)].
    The foreign key is declared but sqlite3 does not enforce it unless
    [PRAGMA foreign_keys] is switched on, which no script does. *)
Definition sql_insert_libro (p : option string * option Z * option Z) (d : bd)
    : error_sql + bd * Z :=
  let '(titulo, anio, autor_id) := p in
  match libros d with
  | None => sin_tabla "libros"
  | Some t =>
    match titulo with
    | None => inl (IntegrityError, "NOT NULL constraint failed: libros.titulo")
    | Some ti =>
      let id := nuevo_rowid (l_id <$> filas t) (secuencia t) in
      if decide (max_rowid < id)
      then inl (DatabaseError, "database or disk is full")
      else inr (Bd (autores d)
                   (Some (Tabla (filas t ++ [Libro id ti anio autor_id]) id)), id)
    end
  end.

(** One [columna = ?] of a SET clause, with the value bound to it. *)
Inductive asignacion :=
  | SetTitulo (t : string)
  | SetAnio (a : Z)
  | SetAutorId (a : Z).

Definition asignar (l : libro) (s : asignacion) : libro :=
  match s with
  | SetTitulo t => Libro (l_id l) t (l_anio l) (l_autor_id l)
  | SetAnio a => Libro (l_id l) (l_titulo l) (Some a) (l_autor_id l)
  | SetAutorId a => Libro (l_id l) (l_titulo l) (l_anio l) (Some a)
  end.

(** [UPDATE libros SET <campos> WHERE id = ?]; the result is
    [rowcount]. *)
Definition sql_update_libros (campos : list asignacion) (id : Z) (d : bd)
    : error_sql + bd * nat :=
  match libros d with
  | None => sin_tabla "libros"
  | Some t =>
    let f l := if decide (l_id l = id) then foldl asignar l campos else l in
    inr (Bd (autores d) (Some (Tabla (f <$> filas t) (secuencia t))),
         length (filter (λ l, l_id l = id) (filas t)))
  end.

(** [DELETE FROM libros WHERE id = ?]; the result is [rowcount]. *)
Definition sql_delete_libro (id : Z) (d : bd) : error_sql + bd * nat :=
  match libros d with
  | None => sin_tabla "libros"
  | Some t =>
    inr (Bd (autores d)
            (Some (Tabla (filter (λ l, l_id l ≠ id) (filas t)) (secuencia t))),
         length (filter (λ l, l_id l = id) (filas t)))
  end.

(** [FROM libros l JOIN autores a ON l.autor_id = a.id]: the pairs of
    the inner join, books in the outer loop. *)
Definition sql_join (d : bd) : error_sql + list (libro * autor) :=
  match libros d, autores d with
  | None, _ => sin_tabla "libros"
  | _, None => sin_tabla "autores"
  | Some tl, Some ta =>
    inr (l ← filas tl;
         (λ a, (l, a)) <$> filter (λ a, l_autor_id l = Some (a_id a)) (filas ta))
  end.

(** [SELECT l.titulo, l.anio, a.nombre FROM <join> ORDER BY l.titulo].
    Text is compared byte by byte (the BINARY collation), the order
    [String.le]; the place of rows with equal titles is the engine's
    choice, here that of a merge sort. *)
Definition por_titulo (x y : libro * autor) : Prop :=
  String.le (l_titulo x.1) (l_titulo y.1).

#[global] Instance por_titulo_dec : RelDecision por_titulo.
Proof. intros x y. unfold por_titulo. apply _. Defined.

Definition sql_select_por_titulo (d : bd)
    : error_sql + list (string * option Z * string) :=
  match sql_join d with
  | inl e => inl e
  | inr js =>
    inr ((λ '(l, a), (l_titulo l, l_anio l, a_nombre a)) <$> merge_sort por_titulo js)
  end.

(** [SELECT l.id, l.titulo, l.anio, a.nombre FROM <join> ORDER BY l.id] *)
Definition por_id (x y : libro * autor) : Prop := l_id x.1 ≤ l_id y.1.

#[global] Instance por_id_dec : RelDecision por_id.
Proof. intros x y. unfold por_id. apply _. Defined.

Definition sql_select_por_id (d : bd)
    : error_sql + list (Z * string * option Z * string) :=
  match sql_join d with
  | inl e => inl e
  | inr js =>
    inr ((λ '(l, a), (l_id l, l_titulo l, l_anio l, a_nombre a))
           <$> merge_sort por_id js)
  end.

(** [SELECT l.titulo, l.anio FROM <join> WHERE a.nombre = ?] *)
Definition sql_select_por_autor (nombre : string) (d : bd)
    : error_sql + list (string * option Z) :=
  match sql_join d with
  | inl e => inl e
  | inr js =>
    inr ((λ '(l, _), (l_titulo l, l_anio l))
           <$> filter (λ '(_, a), a_nombre a = nombre) js)
  end.

(** [SELECT id FROM libros WHERE id = ?] *)
Definition sql_select_id (id : Z) (d : bd) : error_sql + list Z :=
  match libros d with
  | None => sin_tabla "libros"
  | Some t => inr (l_id <$> filter (λ l, l_id l = id) (filas t))
  end.

(** [SELECT id, nombre FROM autores ORDER BY id] *)
Definition autor_por_id (x y : autor) : Prop := a_id x ≤ a_id y.

#[global] Instance autor_por_id_dec : RelDecision autor_por_id.
Proof. intros x y. unfold autor_por_id. apply _. Defined.

Definition sql_select_autores (d : bd) : error_sql + list (Z * string) :=
  match autores d with
  | None => sin_tabla "autores"
  | Some t => inr ((λ a, (a_id a, a_nombre a)) <$> merge_sort autor_por_id (filas t))
  end.

(** *** The calls of the [sqlite3] module on a connection *)

(** One round trip to the engine: it fails when the fault plan says so. *)
Definition averia : M conexion unit := λ w,
  let c := motor w in
  match fallos c with
  | [] => (Devuelve tt, w)
  | b :: fs =>
    let w' := Mundo (Conexion (disco c) (pendiente c) fs) (salida w) in
    if b then (Lanza (SqliteError OperationalError "disk I/O error"), w')
    else (Devuelve tt, w')
  end.

(** A SELECT: reads the view, opens no transaction. *)
Definition execute_select {A} (q : bd → error_sql + A) : M conexion A :=
  averia ;;
  c ← leer;
  match q (vista c) with
  | inl e => raise_sql e
  | inr a => mret a
  end.

(** The tables a statement can write to. *)
Inductive nombre_tabla := TAutores | TLibros.

Definition str_tabla (t : nombre_tabla) : string :=
  match t with TAutores => "autores" | TLibros => "libros" end.

Definition existe (t : nombre_tabla) (d : bd) : bool :=
  match t with
  | TAutores => bool_decide (is_Some (autores d))
  | TLibros => bool_decide (is_Some (libros d))
  end.

(** An INSERT, UPDATE or DELETE goes through three stages.  The
    statement is compiled, and a missing table is reported then; the
    module opens a transaction if none is open; the statement runs in
    the transaction, once per tuple of parameters. *)
Definition preparar (t : nombre_tabla) : M conexion unit :=
  c ← leer;
  if existe t (vista c) then mret tt
  else raise_sql (OperationalError, "no such table: " +:+ str_tabla t).

Definition abrir : M conexion unit :=
  c ← leer;
  poner (Conexion (disco c) (Some (vista c)) (fallos c)).

Definition paso {A} (f : bd → error_sql + bd * A) : M conexion A :=
  c ← leer;
  match f (vista c) with
  | inl e => raise_sql e
  | inr (d', a) => poner (Conexion (disco c) (Some d') (fallos c)) ;; mret a
  end.

(** [cursor.execute(<INSERT | UPDATE | DELETE>, params)] *)
Definition execute_dml {A} (t : nombre_tabla) (f : bd → error_sql + bd * A)
    : M conexion A :=
  averia ;; preparar t ;; abrir ;; paso f.

(** [cursor.executemany(<INSERT>, seq_of_params)] *)
Definition executemany {P A} (t : nombre_tabla) (f : P → bd → error_sql + bd * A)
    (params : list P) : M conexion unit :=
  averia ;; preparar t ;; abrir ;; for_each params (λ p, paso (f p) ;; mret tt).

(** [cursor.execute(<CREATE TABLE>)]: no transaction is opened for it;
    outside a transaction the change is durable at once. *)
Definition execute_ddl (f : bd → bd) : M conexion unit :=
  averia ;;
  c ← leer;
  match pendiente c with
  | Some d => poner (Conexion (disco c) (Some (f d)) (fallos c))
  | None => poner (Conexion (f (disco c)) None (fallos c))
  end.

(** [conexion.execute("BEGIN TRANSACTION")] *)
Definition execute_begin : M conexion unit :=
  averia ;;
  c ← leer;
  match pendiente c with
  | Some _ => lanzar (SqliteError OperationalError
                        "cannot start a transaction within a transaction")
  | None => poner (Conexion (disco c) (Some (disco c)) (fallos c))
  end.

(** [conexion.commit()]: with no transaction open there is nothing to
    do, and the engine is not called. *)
Definition commit : M conexion unit :=
  c ← leer;
  match pendiente c with
  | None => mret tt
  | Some _ =>
    averia ;;
    c' ← leer;
    poner (Conexion (vista c') None (fallos c'))
  end.

(** [conexion.rollback()] *)
Definition rollback : M conexion unit :=
  c ← leer;
  poner (Conexion (disco c) None (fallos c)).

End Sqlite.

(** ** ej3a1.py: the library on an in-memory sqlite3 database *)

Module Ej3a1.
Import Sqlite.

(** [DB_PATH] is [":memory:"]: every connection starts on a fresh,
    empty database, whatever was stored before.  [plan] is the fault
    plan of the engine behind the new handle. *)
Definition crear_conexion (plan : list bool) : option conexion :=
  Some (Conexion bd_vacia None plan).

Definition crear_tablas : M conexion unit :=
  try_except
    (execute_ddl sql_create_autores ;;
     execute_ddl sql_create_libros ;;
     commit)
    es_sqlite3_Error
    (λ e, print ("Error al crear las tablas: " +:+ str_excepcion e) ;;
          rollback).

Definition insertar_autores (autores : list (option string)) : M conexion unit :=
  try_except
    (executemany TAutores sql_insert_autor autores ;;
     commit ;;
     print ("Se insertaron " +:+ pretty (length autores)
            +:+ " autores correctamente."))
    es_sqlite3_Error
    (λ e, print ("Error al insertar autores: " +:+ str_excepcion e) ;;
          rollback).

Definition insertar_libros
    (libros : list (option string * option Z * option Z)) : M conexion unit :=
  try_except
    (executemany TLibros sql_insert_libro libros ;;
     commit ;;
     print ("Se insertaron " +:+ pretty (length libros)
            +:+ " libros correctamente."))
    es_sqlite3_Error
    (λ e, print ("Error al insertar libros: " +:+ str_excepcion e) ;;
          rollback).

(** The line printed for one row of the listing. *)
Definition linea_libro (f : string * option Z * string) : string :=
  let '(titulo, anio, autor) := f in
  "- " +:+ titulo +:+ " (" +:+ str_opt_int anio +:+ ") - " +:+ autor.

Definition cabecera : string :=
  String (Ascii.ascii_of_nat 10) "=== LIBROS CON SUS AUTORES ===".

Definition consultar_libros : M conexion unit :=
  try_except
    (libros ← execute_select sql_select_por_titulo;
     print cabecera ;;
     for_each libros (λ f, print (linea_libro f)))
    es_sqlite3_Error
    (λ e, print ("Error al consultar libros: " +:+ str_excepcion e)).

Definition buscar_libros_por_autor (nombre_autor : string)
    : M conexion (list (string * option Z)) :=
  try_except
    (libros ← execute_select (sql_select_por_autor nombre_autor);
     mret libros)
    es_sqlite3_Error
    (λ e, print ("Error al buscar libros por autor: " +:+ str_excepcion e) ;;
          mret []).

Definition actualizar_libro (id_libro : Z)
    (nuevo_titulo : option string) (nuevo_anio : option Z) : M conexion unit :=
  try_except
    (let campos_a_actualizar := [] in
     let campos_a_actualizar :=
       match nuevo_titulo with
       | Some t => campos_a_actualizar ++ [SetTitulo t]
       | None => campos_a_actualizar
       end in
     let campos_a_actualizar :=
       match nuevo_anio with
       | Some a => campos_a_actualizar ++ [SetAnio a]
       | None => campos_a_actualizar
       end in
     match campos_a_actualizar with
     | _ :: _ =>
       rowcount ← execute_dml TLibros
                     (sql_update_libros campos_a_actualizar id_libro);
       commit ;;
       if decide (0 < rowcount)%nat
       then print ("Libro con ID " +:+ str_int id_libro
                   +:+ " actualizado correctamente.")
       else print ("No se encontró ningún libro con ID "
                   +:+ str_int id_libro +:+ ".")
     | [] => print "No se proporcionaron campos para actualizar."
     end)
    es_sqlite3_Error
    (λ e, print ("Error al actualizar libro: " +:+ str_excepcion e) ;;
          rollback).

Definition eliminar_libro (id_libro : Z) : M conexion unit :=
  try_except
    (rowcount ← execute_dml TLibros (sql_delete_libro id_libro);
     commit ;;
     if decide (0 < rowcount)%nat
     then print ("Libro con ID " +:+ str_int id_libro
                 +:+ " eliminado correctamente.")
     else print ("No se encontró ningún libro con ID "
                 +:+ str_int id_libro +:+ "."))
    es_sqlite3_Error
    (λ e, print ("Error al eliminar libro: " +:+ str_excepcion e) ;;
          rollback).

(** The transaction scope of [ejemplo_transaccion]: the body of its
    [try]. *)
Definition transaccion_cuerpo : M conexion unit :=
  execute_begin ;;
  nuevo_autor_id ← execute_dml TAutores
                     (sql_insert_autor (Some "Mario Vargas Llosa"));
  execute_dml TLibros (sql_insert_libro
    (Some "La ciudad y los perros", Some 1963, Some nuevo_autor_id)) ;;
  commit ;;
  print "Transacción completada: Se agregó 'Mario Vargas Llosa' y su libro.".

Definition ejemplo_transaccion : M conexion unit :=
  try_except
    transaccion_cuerpo
    es_sqlite3_Error
    (λ e, print ("Error en la transacción: " +:+ str_excepcion e) ;;
          rollback ;;
          print "Transacción revertida.").

End Ej3a1.

(** ** ej3a2.py: the library in a database file built from a script *)

Module Ej3a2.
Import Sqlite.

(** The two files the script names, and the engine behind them:
    [archivo_bd] is [biblioteca.db] ([DB_PATH]), holding a database
    when it exists; [archivo_sql] is [test.sql] ([SQL_FILE_PATH]), read
    as the list of its statements, each with its denotation;
    [averias] is the fault plan of the engine. *)
Record sistema := Sistema {
  archivo_bd : option bd;
  archivo_sql : option (list (bd → error_sql + bd));
  averias : list bool }.

(** [os.path.exists(DB_PATH)], [os.remove(DB_PATH)],
    [os.path.exists(SQL_FILE_PATH)] and reading the script. *)
Definition existe_bd : M sistema bool :=
  s ← leer; mret (bool_decide (is_Some (archivo_bd s))).

Definition remove_bd : M sistema unit :=
  s ← leer; poner (Sistema None (archivo_sql s) (averias s)).

Definition leer_sql : M sistema (option (list (bd → error_sql + bd))) :=
  s ← leer; mret (archivo_sql s).

Definition averia_sistema : M sistema unit := λ w,
  let s := motor w in
  match averias s with
  | [] => (Devuelve tt, w)
  | b :: fs =>
    let w' := Mundo (Sistema (archivo_bd s) (archivo_sql s) fs) (salida w) in
    if b then (Lanza (SqliteError OperationalError "disk I/O error"), w')
    else (Devuelve tt, w')
  end.

(** [sqlite3.connect(DB_PATH)]: opens the file, creating an empty
    database when there is none. *)
Definition connect : M sistema unit :=
  averia_sistema ;;
  s ← leer;
  poner (Sistema (Some (default bd_vacia (archivo_bd s))) (archivo_sql s) (averias s)).

(** What a script makes of a database, its statements run one after the
    other up to the first that fails. *)
Fixpoint correr (script : list (bd → error_sql + bd)) (d : bd) : error_sql + bd :=
  match script with
  | [] => inr d
  | sentencia :: resto =>
    match sentencia d with
    | inl e => inl e
    | inr d' => correr resto d'
    end
  end.

(** [conexion.executescript(script)] on a connection with no open
    transaction: the statements run one after the other, each durable
    as soon as it is done; the first error stops the script. *)
Definition executescript (script : list (bd → error_sql + bd)) : M sistema unit :=
  averia_sistema ;;
  for_each script (λ sentencia,
    s ← leer;
    match sentencia (default bd_vacia (archivo_bd s)) with
    | inl e => lanzar (SqliteError e.1 e.2)
    | inr d => poner (Sistema (Some d) (archivo_sql s) (averias s))
    end).

(** The handle returned: a connection on the file as it stands, with
    no transaction open (so that the [conexion.commit()] that follows the
    script has nothing to do). *)
Definition conexion_abierta : M sistema conexion :=
  s ← leer; mret (Conexion (default bd_vacia (archivo_bd s)) None (averias s)).

Definition crear_bd_desde_sql : M sistema conexion :=
  try_except
    (existe ← existe_bd;
     (if existe : bool then remove_bd else mret tt) ;;
     connect ;;
     script_sql ← leer_sql;
     match script_sql with
     | Some script =>
       executescript script ;;
       conexion_abierta
     | None =>
       lanzar (FileNotFoundError "No se encontró el archivo SQL: test.sql")
     end)
    es_sqlite3_Error
    (λ e, print ("Error al crear la base de datos: " +:+ str_excepcion e) ;;
          lanzar e).

Definition obtener_libros : M conexion (list (Z * string * option Z * string)) :=
  try_except
    (execute_select sql_select_por_id)
    es_sqlite3_Error
    (λ e, print ("Error al obtener libros: " +:+ str_excepcion e) ;;
          mret []).

Definition actualizar_libro (libro_id : Z) (nuevo_titulo : option string)
    (nuevo_anio : option Z) (nuevo_autor_id : option Z) : M conexion bool :=
  try_except
    (encontrados ← execute_select (sql_select_id libro_id);
     match head encontrados with
     | None => mret false
     | Some _ =>
       let campos_a_actualizar := [] in
       let campos_a_actualizar :=
         match nuevo_titulo with
         | Some t => campos_a_actualizar ++ [SetTitulo t]
         | None => campos_a_actualizar
         end in
       let campos_a_actualizar :=
         match nuevo_anio with
         | Some a => campos_a_actualizar ++ [SetAnio a]
         | None => campos_a_actualizar
         end in
       let campos_a_actualizar :=
         match nuevo_autor_id with
         | Some a => campos_a_actualizar ++ [SetAutorId a]
         | None => campos_a_actualizar
         end in
       match campos_a_actualizar with
       | [] => mret false
       | _ :: _ =>
         rowcount ← execute_dml TLibros
                       (sql_update_libros campos_a_actualizar libro_id);
         commit ;;
         mret (bool_decide (0 < rowcount)%nat)
       end
     end)
    es_sqlite3_Error
    (λ e, print ("Error al actualizar libro: " +:+ str_excepcion e) ;;
          rollback ;;
          mret false).

(** The value is [cursor.lastrowid], or [-1] after an error.  The table
    of books, which [test.sql] creates, is taken to be declared as
    [ej3a1] declares it: its ids are AUTOINCREMENT. *)
Definition agregar_libro (titulo : string) (anio autor_id : Z) : M conexion Z :=
  try_except
    (lastrowid ← execute_dml TLibros
                   (sql_insert_libro (Some titulo, Some anio, Some autor_id));
     commit ;;
     mret lastrowid)
    es_sqlite3_Error
    (λ e, print ("Error al agregar libro: " +:+ str_excepcion e) ;;
          rollback ;;
          mret (-1)).

Definition obtener_autores : M conexion (list (Z * string)) :=
  try_except
    (execute_select sql_select_autores)
    es_sqlite3_Error
    (λ e, print ("Error al obtener autores: " +:+ str_excepcion e) ;;
          mret []).

End Ej3a2.

(** ** The pymongo engine *)

Module Mongo.

(** The BSON values the scripts store.  An [ObjectId] is its twelve
    bytes read as a number. *)
Inductive bson :=
  | BNull
  | BInt (z : Z)
  | BString (s : string)
  | BObjectId (o : N).

#[global] Instance bson_eq_dec : EqDecision bson.
Proof. solve_decision. Defined.

(** A document is a dictionary from field names to values. *)
Abbreviation documento := (gmap string bson).

Inductive coleccion := Autores | Libros.

(** The database behind the handle [db]: the two collections (a
    collection that was never written is empty); the writes of the
    open multi-document transaction, if one is open, as the copies of
    the two collections it works on; the source of fresh [ObjectId]s;
    whether the server is a replica set member (only then does it
    accept transactions); the fault plan, as for sqlite3. *)
Record base := Base {
  col_autores : list documento;
  col_libros : list documento;
  transaccion : option (list documento * list documento);
  contador_oid : N;
  replica_set : bool;
  averias : list bool }.

Definition docs (c : coleccion) (b : base) : list documento :=
  match c with Autores => col_autores b | Libros => col_libros b end.

Definition con_docs (c : coleccion) (ds : list documento) (b : base) : base :=
  match c with
  | Autores => Base ds (col_libros b) (transaccion b) (contador_oid b)
                    (replica_set b) (averias b)
  | Libros => Base (col_autores b) ds (transaccion b) (contador_oid b)
                   (replica_set b) (averias b)
  end.

(** [str(ObjectId)]: twenty-four hexadecimal digits. *)
Definition digito_hex (n : N) : Ascii.ascii :=
  default (Ascii.ascii_of_nat 48)
    (String.get (N.to_nat n) "0123456789abcdef").

Fixpoint hex (digitos : nat) (n : N) (acc : string) : string :=
  match digitos with
  | O => acc
  | S k => hex k (n `div` 16)%N (String (digito_hex (n `mod` 16)%N) acc)
  end.

Definition str_oid (o : N) : string := hex 24 o "".

(** [str(v)] of a stored value. *)
Definition str_bson (v : bson) : string :=
  match v with
  | BNull => "None"
  | BInt z => str_int z
  | BString s => s
  | BObjectId o => str_oid o
  end.

(** [doc[campo]] *)
Definition getitem (doc : documento) (campo : string) : M base bson :=
  match doc !! campo with
  | Some v => mret v
  | None => lanzar (KeyError ("'" +:+ campo +:+ "'"))
  end.

(** A query filter [{campo: valor, ...}] selects the documents that
    hold each of its fields with that very value: values of different
    BSON types are never equal. *)
Definition coincide (filtro doc : documento) : Prop :=
  map_Forall (λ k v, doc !! k = Some v) filtro.

#[global] Instance coincide_dec filtro doc : Decision (coincide filtro doc).
Proof. unfold coincide. apply _. Defined.

Definition averia : M base unit := λ w,
  let b := motor w in
  match averias b with
  | [] => (Devuelve tt, w)
  | f :: fs =>
    let w' := Mundo (Base (col_autores b) (col_libros b) (transaccion b)
                          (contador_oid b) (replica_set b) fs) (salida w) in
    if f then (Lanza (PyMongoError "connection closed"), w')
    else (Devuelve tt, w')
  end.

(** A document sent for insertion without [_id] is given a fresh
    [ObjectId] by the driver. *)
Definition con_id (doc : documento) : M base documento :=
  match doc !! "_id" with
  | Some _ => mret doc
  | None =>
    b ← leer;
    poner (Base (col_autores b) (col_libros b) (transaccion b)
                (contador_oid b + 1)%N (replica_set b) (averias b)) ;;
    mret (<["_id" := BObjectId (contador_oid b)]> doc)
  end.

(** The server refuses a second document with the same [_id]. *)
Definition agregar (doc : documento) (ds : list documento)
    : excepcion + list documento :=
  if decide (Exists (λ d, d !! "_id" = doc !! "_id") ds)
  then inl (PyMongoError "E11000 duplicate key error")
  else inr (ds ++ [doc]).

(** [db.<c>.insert_many(documentos)]: the result is [inserted_ids].
    The driver rejects an empty list; the documents are written in
    order, up to the first one the server refuses. *)
Fixpoint insertar_en_orden (c : coleccion) (ds : list documento) : M base unit :=
  match ds with
  | [] => mret tt
  | d :: ds' =>
    b ← leer;
    match agregar d (docs c b) with
    | inl e => lanzar e
    | inr nuevos => poner (con_docs c nuevos b) ;; insertar_en_orden c ds'
    end
  end.

Fixpoint con_ids (ds : list documento) : M base (list documento) :=
  match ds with
  | [] => mret []
  | d :: ds' => d' ← con_id d; r ← con_ids ds'; mret (d' :: r)
  end.

Definition insert_many (c : coleccion) (documentos : list documento)
    : M base (list bson) :=
  match documentos with
  | [] => lanzar (TypeError "documents must be a non-empty list")
  | _ :: _ =>
    ds ← con_ids documentos;
    averia ;;
    insertar_en_orden c ds ;;
    mret ((λ d, default BNull (d !! "_id")) <$> ds)
  end.

(** [db.<c>.find_one(filtro)] *)
Definition find_one (c : coleccion) (filtro : documento)
    : M base (option documento) :=
  averia ;;
  b ← leer;
  mret (head (filter (coincide filtro) (docs c b))).

(** [list(db.<c>.find(filtro, {"_id": 0, campos...: 1}))] *)
Definition find (c : coleccion) (filtro : documento) (campos : list string)
    : M base (list documento) :=
  averia ;;
  b ← leer;
  mret ((λ d, filter (λ kv, kv.1 ∈ campos) d) <$> filter (coincide filtro) (docs c b)).

(** Replacing the first document that the filter selects. *)
Fixpoint cambiar_primero (p : documento → bool) (f : documento → option documento)
    (ds : list documento) : list documento * option documento :=
  match ds with
  | [] => ([], None)
  | d :: ds' =>
    if p d then (from_option (λ d', [d']) [] (f d) ++ ds', Some d)
    else let '(r, o) := cambiar_primero p f ds' in (d :: r, o)
  end.

(** [db.<c>.update_one(filtro, {"$set": campos})]: the result is
    [modified_count], which counts a document only when it changed. *)
Definition update_one (c : coleccion) (filtro campos : documento) : M base nat :=
  averia ;;
  b ← leer;
  let '(nuevos, hallado) :=
    cambiar_primero (λ d, bool_decide (coincide filtro d))
                    (λ d, Some (campos ∪ d)) (docs c b) in
  poner (con_docs c nuevos b) ;;
  mret (match hallado with
        | Some d => if decide (campos ∪ d = d) then 0%nat else 1%nat
        | None => 0%nat
        end).

(** [db.<c>.delete_one(filtro)]: the result is [deleted_count]. *)
Definition delete_one (c : coleccion) (filtro : documento) : M base nat :=
  averia ;;
  b ← leer;
  let '(nuevos, hallado) :=
    cambiar_primero (λ d, bool_decide (coincide filtro d)) (λ _, None) (docs c b) in
  poner (con_docs c nuevos b) ;;
  mret (match hallado with Some _ => 1%nat | None => 0%nat end).

(** [pymongo.ObjectId(s)].  The [pymongo] package exports no name
    [ObjectId] (the class lives in [bson.objectid], which the script
    imports and never uses), so looking the attribute up raises
    [AttributeError] before any call is made. *)
Definition mensaje_ObjectId : string :=
  "module 'pymongo' has no attribute 'ObjectId'".

Definition pymongo_ObjectId (s : string) : M base bson :=
  lanzar (AttributeError mensaje_ObjectId).

(** *** The aggregation of [consultar_libros] *)

(** [$lookup] from [autores] with [localField] autor_id and
    [foreignField] _id, then [$unwind]: one pair per author whose
    [_id] equals the book's [autor_id]; a missing field compares as
    null; a book with no such author is dropped. *)
Definition lookup_unwind (libros autores : list documento)
    : list (documento * documento) :=
  l ← libros;
  (λ a, (l, a)) <$>
    filter (λ a, default BNull (a !! "_id") = default BNull (l !! "autor_id")) autores.

(** [$project]: [_id], [titulo] and [anio] of the book where it has
    them, and [autor_nombre] from the author's [nombre]. *)
Definition project (p : documento * documento) : documento :=
  let '(l, a) := p in
  let propios := filter (λ kv, kv.1 ∈ ["_id"; "titulo"; "anio"]) l in
  match a !! "nombre" with
  | Some n => <["autor_nombre" := n]> propios
  | None => propios
  end.

(** The order of [$sort]: null and missing first, then numbers, then
    text byte by byte, then [ObjectId]s. *)
Definition rango (v : bson) : nat :=
  match v with BNull => 1 | BInt _ => 2 | BString _ => 3 | BObjectId _ => 4 end%nat.

Definition bson_le (x y : bson) : bool :=
  match x, y with
  | BInt a, BInt b => bool_decide (a ≤ b)
  | BString a, BString b => String.leb a b
  | BObjectId a, BObjectId b => bool_decide (a ≤ b)%N
  | _, _ => bool_decide (rango x ≤ rango y)%nat
  end.

Definition por_titulo (x y : documento) : Prop :=
  bson_le (default BNull (x !! "titulo")) (default BNull (y !! "titulo")).

#[global] Instance por_titulo_dec : RelDecision por_titulo.
Proof. intros x y. unfold por_titulo. apply _. Defined.

(** [list(db.libros.aggregate(pipeline))] *)
Definition aggregate_libros : M base (list documento) :=
  averia ;;
  b ← leer;
  mret (merge_sort por_titulo
          (project <$> lookup_unwind (col_libros b) (col_autores b))).

(** *** Sessions and transactions *)

(** [with session.start_transaction(): cuerpo].  Leaving the block
    normally commits, which is a round trip that can fail; leaving it
    on an exception aborts and lets the exception through. *)
Definition start_transaction : M base unit :=
  b ← leer;
  poner (Base (col_autores b) (col_libros b) (Some (col_autores b, col_libros b))
              (contador_oid b) (replica_set b) (averias b)).

Definition abort_transaction : M base unit :=
  b ← leer;
  poner (Base (col_autores b) (col_libros b) None
              (contador_oid b) (replica_set b) (averias b)).

Definition commit_transaction : M base unit :=
  averia ;;
  b ← leer;
  match transaccion b with
  | Some (a, l) =>
    poner (Base a l None (contador_oid b) (replica_set b) (averias b))
  | None => mret tt
  end.

Definition with_transaction {A} (cuerpo : M base A) : M base A :=
  start_transaction ;;
  try_except
    (r ← cuerpo; commit_transaction ;; mret r)
    es_Exception
    (λ e, abort_transaction ;; lanzar e).

(** [with db.client.start_session() as session: cuerpo]: ending the
    session drops a transaction still in progress. *)
Definition with_session {A} (cuerpo : M base A) : M base A :=
  try_except
    (r ← cuerpo; abort_transaction ;; mret r)
    es_Exception
    (λ e, abort_transaction ;; lanzar e).

(** [db.<c>.insert_one(doc, session=session)] inside the transaction of
    the session: the result is [inserted_id]. *)
Definition insert_one_en_sesion (c : coleccion) (doc : documento) : M base bson :=
  d ← con_id doc;
  averia ;;
  b ← leer;
  if replica_set b then
    match transaccion b with
    | Some (a, l) =>
      match agregar d (match c with Autores => a | Libros => l end) with
      | inl e => lanzar e
      | inr nuevos =>
        poner (Base (col_autores b) (col_libros b)
                    (Some (match c with
                           | Autores => (nuevos, l)
                           | Libros => (a, nuevos)
                           end))
                    (contador_oid b) (replica_set b) (averias b)) ;;
        mret (default BNull (d !! "_id"))
      end
    | None => lanzar (PyMongoError "no transaction started")
    end
  else
    lanzar (PyMongoError
      "Transaction numbers are only allowed on a replica set member or mongos").

End Mongo.

(** ** ej3a4.py: the library on a MongoDB database *)

Module Ej3a4.
Import Mongo.

(** The document built for an author [(nombre,)]. *)
Definition doc_autor (nombre : string) : documento :=
  {[ "nombre" := BString nombre ]}.

Definition insertar_autores (autores : list string) : M base (list string) :=
  try_except
    (let documentos := doc_autor <$> autores in
     inserted_ids ← insert_many Autores documentos;
     let ids_insertados := str_bson <$> inserted_ids in
     print ("Se insertaron " +:+ pretty (length ids_insertados)
            +:+ " autores correctamente.") ;;
     mret ids_insertados)
    es_Exception
    (λ e, print ("Error al insertar autores: " +:+ str_excepcion e) ;;
          mret []).

(** The document built for a book [(titulo, anio, autor_id)]:
    [str(autor_id_tuple)] of a [str] is the string itself. *)
Definition doc_libro (l : string * Z * string) : documento :=
  let '(titulo, anio, autor_id_tuple) := l in
  {[ "titulo" := BString titulo; "anio" := BInt anio;
     "autor_id" := BString autor_id_tuple ]}.

Definition insertar_libros (libros : list (string * Z * string))
    : M base (list string) :=
  try_except
    (let documentos := doc_libro <$> libros in
     inserted_ids ← insert_many Libros documentos;
     let ids_insertados := str_bson <$> inserted_ids in
     print ("Se insertaron " +:+ pretty (length ids_insertados)
            +:+ " libros correctamente.") ;;
     mret ids_insertados)
    es_Exception
    (λ e, print ("Error al insertar libros: " +:+ str_excepcion e) ;;
          mret []).

Definition cabecera : string :=
  String (Ascii.ascii_of_nat 10) "=== LIBROS CON SUS AUTORES ===".

Definition consultar_libros : M base unit :=
  try_except
    (libros_con_autores ← aggregate_libros;
     print cabecera ;;
     for_each libros_con_autores (λ libro,
       titulo ← getitem libro "titulo";
       anio ← getitem libro "anio";
       autor_nombre ← getitem libro "autor_nombre";
       print ("- " +:+ str_bson titulo +:+ " (" +:+ str_bson anio +:+ ") - "
              +:+ str_bson autor_nombre)))
    es_Exception
    (λ e, print ("Error al consultar libros: " +:+ str_excepcion e)).

(** [[(libro["titulo"], libro["anio"]) for libro in libros]] *)
Fixpoint tuplas (libros : list documento) : M base (list (bson * bson)) :=
  match libros with
  | [] => mret []
  | libro :: resto =>
    titulo ← getitem libro "titulo";
    anio ← getitem libro "anio";
    r ← tuplas resto;
    mret ((titulo, anio) :: r)
  end.

(** [if not autor] holds for [None] and for an empty dictionary. *)
Definition buscar_libros_por_autor (nombre_autor : string)
    : M base (list (bson * bson)) :=
  try_except
    (autor ← find_one Autores {[ "nombre" := BString nombre_autor ]};
     match autor with
     | Some autor =>
       if decide (autor = ∅) then
         print ("No se encontró el autor: " +:+ nombre_autor) ;;
         mret []
       else
         id ← getitem autor "_id";
         libros ← find Libros {[ "autor_id" := BString (str_bson id) ]}
                     ["titulo"; "anio"];
         resultado ← tuplas libros;
         mret resultado
     | None =>
       print ("No se encontró el autor: " +:+ nombre_autor) ;;
       mret []
     end)
    es_Exception
    (λ e, print ("Error al buscar libros por autor: " +:+ str_excepcion e) ;;
          mret []).

Definition actualizar_libro (id_libro : string)
    (nuevo_titulo : option string) (nuevo_anio : option Z) : M base bool :=
  try_except
    (let campos_actualizacion : documento := ∅ in
     let campos_actualizacion :=
       match nuevo_titulo with
       | Some t => <["titulo" := BString t]> campos_actualizacion
       | None => campos_actualizacion
       end in
     let campos_actualizacion :=
       match nuevo_anio with
       | Some a => <["anio" := BInt a]> campos_actualizacion
       | None => campos_actualizacion
       end in
     if decide (campos_actualizacion = ∅) then
       print "No se proporcionaron campos para actualizar." ;;
       mret false
     else
       oid ← pymongo_ObjectId id_libro;
       modified_count ← update_one Libros {[ "_id" := oid ]} campos_actualizacion;
       if decide (0 < modified_count)%nat then
         print ("Libro con ID " +:+ id_libro +:+ " actualizado correctamente.") ;;
         mret true
       else
         print ("No se encontró ningún libro con ID " +:+ id_libro +:+ ".") ;;
         mret false)
    es_Exception
    (λ e, print ("Error al actualizar libro: " +:+ str_excepcion e) ;;
          mret false).

Definition eliminar_libro (id_libro : string) : M base bool :=
  try_except
    (oid ← pymongo_ObjectId id_libro;
     deleted_count ← delete_one Libros {[ "_id" := oid ]};
     if decide (0 < deleted_count)%nat then
       print ("Libro con ID " +:+ id_libro +:+ " eliminado correctamente.") ;;
       mret true
     else
       print ("No se encontró ningún libro con ID " +:+ id_libro +:+ ".") ;;
       mret false)
    es_Exception
    (λ e, print ("Error al eliminar libro: " +:+ str_excepcion e) ;;
          mret false).

(** The transaction scope of [ejemplo_transaccion]: the body of its
    [try], the two [with] blocks and what they enclose. *)
Definition transaccion_cuerpo : M base bool :=
  with_session
    (with_transaction
       (let nuevo_autor : documento := {[ "nombre" := BString "Octavio Paz" ]} in
        nuevo_autor_id ← insert_one_en_sesion Autores nuevo_autor;
        let nuevo_libro : documento :=
          {[ "titulo" := BString "El laberinto de la soledad";
             "anio" := BInt 1950;
             "autor_id" := BString (str_bson nuevo_autor_id) ]} in
        insert_one_en_sesion Libros nuevo_libro ;;
        print "Transacción completada: Se agregó 'Octavio Paz' y su libro." ;;
        mret true)).

Definition ejemplo_transaccion : M base bool :=
  try_except
    transaccion_cuerpo
    es_Exception
    (λ e, print ("Error en la transacción: " +:+ str_excepcion e) ;;
          mret false).

End Ej3a4.


(** ** Sample states

    The library of the scripts' own demonstration, cut down to three
    authors and two books (the third author has none), on a healthy
    connection with nothing pending; and an empty document database. *)

Module Muestra.

Definition biblioteca : Sqlite.bd :=
  Sqlite.Bd
    (Some (Sqlite.Tabla [Sqlite.Autor 1 "Gabriel García Márquez";
                         Sqlite.Autor 2 "Isabel Allende";
                         Sqlite.Autor 3 "Jorge Luis Borges"] 3))
    (Some (Sqlite.Tabla
             [Sqlite.Libro 1 "Paula" (Some 1994) (Some 2);
              Sqlite.Libro 2 "Cien años de soledad" (Some 1967) (Some 1)] 2)).

Definition mundo_sql : mundo Sqlite.conexion :=
  Mundo (Sqlite.Conexion biblioteca None []) [].

(** A database where only the table of authors was created. *)
Definition mundo_sin_libros : mundo Sqlite.conexion :=
  Mundo (Sqlite.Conexion
           (Sqlite.Bd (Some (Sqlite.Tabla [Sqlite.Autor 1 "Isabel Allende"] 1)) None)
           None [])
        [].

(** A script that creates the two tables, as [test.sql] may. *)
Definition script_tablas : list (Sqlite.bd → Sqlite.error_sql + Sqlite.bd) :=
  [λ d, inr (Sqlite.sql_create_autores d); λ d, inr (Sqlite.sql_create_libros d)].

Definition tablas_vacias : Sqlite.bd :=
  Sqlite.Bd (Some (Sqlite.Tabla [] 0)) (Some (Sqlite.Tabla [] 0)).

(** An empty document database on a replica set, healthy. *)
Definition mundo_doc : mundo Mongo.base :=
  Mundo (Mongo.Base [] [] None 1000 true []) [].

(** The document library: two authors inserted, then a book for each,
    with the identifiers the first insertion returned. *)
Definition dos_autores : list string :=
  ["Gabriel García Márquez"; "Isabel Allende"].

Definition dos_ids : list string :=
  ["0000000000000000000003e8"; "0000000000000000000003e9"].

Definition dos_libros : list (string * Z * string) :=
  [("Cien años de soledad", 1967, "0000000000000000000003e8");
   ("Paula", 1994, "0000000000000000000003e9")].

Definition mundo_doc_autores : mundo Mongo.base :=
  (Ej3a4.insertar_autores dos_autores mundo_doc).2.

Definition mundo_doc_libros : mundo Mongo.base :=
  (Ej3a4.insertar_libros dos_libros mundo_doc_autores).2.

(** The same when the second round trip to the server fails. *)
Definition mundo_doc_averiado : mundo Mongo.base :=
  Mundo (Mongo.Base [] [] None 1000 true [false; true]) [].

End Muestra.

(** * The vocabulary of the properties *)

Section vocabulario_sql.
Import Sqlite.

(** The database [crear_tablas] leaves, from the one it saw. *)
Definition con_tablas (d : bd) : bd := sql_create_libros (sql_create_autores d).




(** The line [consultar_libros] prints for a pair of the join. *)
Definition linea_par (p : libro * autor) : string :=
  Ej3a1.linea_libro (l_titulo p.1, l_anio p.1, a_nombre p.2).

(** The tuple [obtener_libros] returns for a pair of the join. *)
Definition tupla_par (p : libro * autor) : Z * string * option Z * string :=
  (l_id p.1, l_titulo p.1, l_anio p.1, a_nombre p.2).

End vocabulario_sql.

Section vocabulario_doc.
Import Mongo.

(** A program conserves the collections when, however it ends, the two
    collections are those it started from. *)
Definition mismas (w w' : mundo base) : Prop :=
  col_autores (motor w') = col_autores (motor w)
  ∧ col_libros (motor w') = col_libros (motor w).

Definition conserva {A} (m : M base A) : Prop :=
  ∀ w r w', m w = (r, w') → mismas w w'.

(** Two states of the engine that differ at most in the source of
    fresh identifiers. *)
Definition salvo_contador (b b' : base) : Prop :=
  col_autores b' = col_autores b ∧ col_libros b' = col_libros b
  ∧ transaccion b' = transaccion b ∧ replica_set b' = replica_set b
  ∧ averias b' = averias b.

(** The document the driver sends for [d]: [d] itself when it has an
    [_id], [d] with a fresh [ObjectId] otherwise. *)
Definition enviado (d d' : documento) : Prop :=
  (is_Some (d !! "_id") ∧ d' = d)
  ∨ (d !! "_id" = None ∧ ∃ o, d' = <["_id" := BObjectId o]> d).

(** The collection that [c] is not. *)
Definition otra (c : coleccion) : coleccion :=
  match c with Autores => Libros | Libros => Autores end.

(** Every stored author is identified by an [ObjectId], as the authors
    that [insertar_autores] and [ejemplo_transaccion] store are. *)
Definition autores_con_oid (b : base) : Prop :=
  ∀ a, a ∈ col_autores b → ∃ o, a !! "_id" = Some (BObjectId o).

(** The document stored for a book holds its title, its year, and the
    author's identifier as text. *)
Definition documento_de (d : documento) (l : string * Z * string) : Prop :=
  d !! "titulo" = Some (BString l.1.1) ∧ d !! "anio" = Some (BInt l.1.2)
  ∧ d !! "autor_id" = Some (BString l.2).

End vocabulario_doc.

(** The vocabulary of the properties of the functions that insert,
    add and list. *)

Section vocabulario_altas.
Import Sqlite.

(** The largest rowid a table ever held: that of its rows and its
    sequence. *)
Definition tope {F} (id : F → Z) (t : tabla F) : Z :=
  foldr Z.max (secuencia t) (id <$> filas t).

(** Rows built from [xs], numbered from [k + 1] on. *)
Fixpoint filas_desde {F X} (fila : Z → X → F) (k : Z) (xs : list X) : list F :=
  match xs with
  | [] => []
  | x :: xs' => fila (k + 1) x :: filas_desde fila (k + 1) xs'
  end.





(** A table keeps its primary key when no two rows share an id and no
    id exceeds the sequence. *)
Definition clave {F} (id : F → Z) (t : tabla F) : Prop :=
  NoDup (id <$> filas t) ∧ ∀ x, x ∈ filas t → id x ≤ secuencia t.

Definition integra (d : bd) : Prop :=
  (∀ t, autores d = Some t → clave a_id t)
  ∧ (∀ t, libros d = Some t → clave l_id t).

(** A connection is sound when the durable database and the working
    copy of the open transaction, if any, keep their keys. *)
Definition integra_conexion (c : conexion) : Prop :=
  integra (disco c) ∧ ∀ d, pendiente c = Some d → integra d.

Definition mantiene {A} (m : M conexion A) : Prop :=
  ∀ w r w', integra_conexion (motor w) → m w = (r, w') →
    integra_conexion (motor w').

(** A statement keeps the keys when the database it writes does. *)
Definition conserva_bd {A} (f : bd → error_sql + bd * A) : Prop :=
  ∀ d d' a, integra d → f d = inr (d', a) → integra d'.



End vocabulario_altas.

Section vocabulario_altas_doc.
Import Mongo.

(** The identifiers a collection holds are older than the next one
    the driver will give. *)
Definition fresco (c : coleccion) (b : base) : Prop :=
  ∀ d o, d ∈ docs c b → d !! "_id" = Some (BObjectId o) →
    (o < contador_oid b)%N.

(** Documents given the identifiers from [o] on. *)
Fixpoint docs_desde (o : N) (ds : list documento) : list documento :=
  match ds with
  | [] => []
  | d :: ds' => <["_id" := BObjectId o]> d :: docs_desde (o + 1) ds'
  end.

(** The two documents [ejemplo_transaccion] stores when the driver
    gives them the identifiers [o] and [o + 1]. *)
Definition autor_paz (o : N) : documento :=
  {[ "_id" := BObjectId o; "nombre" := BString "Octavio Paz" ]}.

Definition libro_paz (o : N) : documento :=
  {[ "_id" := BObjectId (o + 1);
     "titulo" := BString "El laberinto de la soledad";
     "anio" := BInt 1950;
     "autor_id" := BString (str_oid o) ]}.

End vocabulario_altas_doc.

(** Two authors of the same name with a book each; and an author one
    of whose books has no year. *)
Module MuestraDoc.

Definition ana_1 : Mongo.documento :=
  {[ "_id" := Mongo.BObjectId 1; "nombre" := Mongo.BString "Ana" ]}.

Definition ana_2 : Mongo.documento :=
  {[ "_id" := Mongo.BObjectId 2; "nombre" := Mongo.BString "Ana" ]}.

Definition libro_a : Mongo.documento :=
  {[ "_id" := Mongo.BObjectId 10; "titulo" := Mongo.BString "A";
     "anio" := Mongo.BInt 2001;
     "autor_id" := Mongo.BString "000000000000000000000001" ]}.

Definition libro_b : Mongo.documento :=
  {[ "_id" := Mongo.BObjectId 11; "titulo" := Mongo.BString "B";
     "anio" := Mongo.BInt 2002;
     "autor_id" := Mongo.BString "000000000000000000000002" ]}.

Definition libro_sin_anio : Mongo.documento :=
  {[ "_id" := Mongo.BObjectId 12; "titulo" := Mongo.BString "C";
     "autor_id" := Mongo.BString "000000000000000000000001" ]}.

Definition mundo_homonimos : mundo Mongo.base :=
  Mundo (Mongo.Base [ana_1; ana_2] [libro_a; libro_b] None 1000 true []) [].

Definition mundo_sin_anio : mundo Mongo.base :=
  Mundo (Mongo.Base [ana_1] [libro_a; libro_sin_anio] None 1000 true []) [].

End MuestraDoc.

(** * Properties *)

(** ** Stepping through a program *)

Lemma bind_devuelve {B A C} (m : M B A) (f : A → M B C) w a w' :
  m w = (Devuelve a, w') → (m ≫= f) w = f a w'.
Proof. intros H. unfold mbind, M_bind. by rewrite H. Qed.

Lemma bind_lanza {B A C} (m : M B A) (f : A → M B C) w e w' :
  m w = (Lanza e, w') → (m ≫= f) w = (Lanza e, w').
Proof. intros H. unfold mbind, M_bind. by rewrite H. Qed.

Lemma try_devuelve {B A} (m : M B A) cl h w a w' :
  m w = (Devuelve a, w') → try_except m cl h w = (Devuelve a, w').
Proof. intros H. unfold try_except. by rewrite H. Qed.

Lemma try_lanza {B A} (m : M B A) cl h w e w' :
  m w = (Lanza e, w') → cl e = true → try_except m cl h w = h e w'.
Proof. intros H Hc. unfold try_except. by rewrite H, Hc. Qed.

(** ** ej3a4.py: the identity filter is never built *)

Section documento_sin_filtro.
Import Mongo Ej3a4.

Lemma eliminar_libro_eq id_libro w :
  eliminar_libro id_libro w =
    (Devuelve false,
     Mundo (motor w)
           (salida w ++ ["Error al eliminar libro: " +:+ mensaje_ObjectId])).
Proof. reflexivity. Qed.

Lemma actualizar_libro_campos id_libro nuevo_titulo nuevo_anio w :
  is_Some nuevo_titulo ∨ is_Some nuevo_anio →
  actualizar_libro id_libro nuevo_titulo nuevo_anio w =
    (Devuelve false,
     Mundo (motor w)
           (salida w ++ ["Error al actualizar libro: " +:+ mensaje_ObjectId])).
Proof.
  intros H. unfold actualizar_libro.
  destruct nuevo_titulo as [t|], nuevo_anio as [a|];
    [..|destruct H as [[? ?]|[? ?]]; discriminate].
  all: rewrite (try_lanza _ _ _ w (AttributeError mensaje_ObjectId) w);
    [reflexivity| |reflexivity].
  all: case_decide as Hv; [|reflexivity].
  all: exfalso; revert Hv.
  - apply insert_non_empty.
  - apply insert_non_empty.
  - apply insert_non_empty.
Qed.

Lemma actualizar_libro_vacio id_libro w :
  actualizar_libro id_libro None None w =
    (Devuelve false,
     Mundo (motor w)
           (salida w ++ ["No se proporcionaron campos para actualizar."])).
Proof. reflexivity. Qed.

End documento_sin_filtro.

(** ** The sqlite3 engine when it is healthy *)

Section sqlite_sano.
Import Sqlite.

Lemma averia_sano w : fallos (motor w) = [] → averia w = (Devuelve tt, w).
Proof. intros H. unfold averia. by rewrite H. Qed.

Lemma execute_select_sano {A} (q : bd → error_sql + A) w :
  fallos (motor w) = [] →
  execute_select q w =
    match q (vista (motor w)) with
    | inl e => (Lanza (SqliteError e.1 e.2), w)
    | inr a => (Devuelve a, w)
    end.
Proof.
  intros H. unfold execute_select.
  rewrite (bind_devuelve _ _ _ _ _ (averia_sano w H)).
  unfold mbind, M_bind, leer. by destruct (q _).
Qed.



Lemma execute_ddl_sano (f : bd → bd) w :
  fallos (motor w) = [] →
  execute_ddl f w =
    (Devuelve tt,
     Mundo (match pendiente (motor w) with
            | Some d => Conexion (disco (motor w)) (Some (f d)) []
            | None => Conexion (f (disco (motor w))) None []
            end) (salida w)).
Proof.
  intros H. unfold execute_ddl.
  rewrite (bind_devuelve _ _ _ _ _ (averia_sano w H)).
  unfold mbind, M_bind, leer. rewrite H. by destruct (pendiente _).
Qed.

Lemma commit_sano w :
  fallos (motor w) = [] →
  commit w = (Devuelve tt, Mundo (Conexion (vista (motor w)) None []) (salida w)).
Proof.
  destruct w as [[d [p|] f] s]; simpl; intros ->; reflexivity.
Qed.

(** Creating a table that exists changes nothing. *)
Lemma crear_tabla_idem {F} (t : option (tabla F)) :
  crear_tabla (crear_tabla t) = crear_tabla t.
Proof. by destruct t. Qed.

Lemma crear_tabla_existente {F} (t : option (tabla F)) x :
  t = Some x → crear_tabla t = Some x.
Proof. by intros ->. Qed.

End sqlite_sano.

(** ** ej3a1.py: creating the tables *)

Section tablas.
Import Sqlite Ej3a1.

Lemma con_tablas_idem d : con_tablas (con_tablas d) = con_tablas d.
Proof.
  unfold con_tablas, sql_create_libros, sql_create_autores. simpl.
  by rewrite !crear_tabla_idem.
Qed.

Lemma crear_tablas_sano w :
  fallos (motor w) = [] →
  crear_tablas w =
    (Devuelve tt, Mundo (Conexion (con_tablas (vista (motor w))) None []) (salida w)).
Proof.
  intros H. unfold crear_tablas.
  apply try_devuelve.
  erewrite bind_devuelve by (by apply execute_ddl_sano).
  erewrite bind_devuelve by (apply execute_ddl_sano; by destruct (pendiente _)).
  rewrite commit_sano by (simpl; by destruct (pendiente _)).
  unfold vista, con_tablas. simpl. by destruct (pendiente (motor w)).
Qed.

(** C7.  Running [crear_tablas] on a healthy connection succeeds, and
    running it again from the state it leaves changes nothing at all:
    same database, same (empty) transaction state, nothing printed, no
    exception.  A table that existed before the first run is left as it
    was, rows and sequence included. *)
Theorem C7_crear_tablas_idempotente (w : mundo conexion) :
  fallos (motor w) = [] →
  ∃ w1,
    crear_tablas w = (Devuelve tt, w1)
    ∧ crear_tablas w1 = (Devuelve tt, w1)
    ∧ (∀ t, autores (vista (motor w)) = Some t → autores (vista (motor w1)) = Some t)
    ∧ (∀ t, libros (vista (motor w)) = Some t → libros (vista (motor w1)) = Some t).
Proof.
  intros H. eexists. split; [by apply crear_tablas_sano|]. split.
  - rewrite crear_tablas_sano by done. simpl.
    unfold vista at 1. simpl. by rewrite con_tablas_idem.
  - split; intros t Ht; unfold vista at 1; simpl;
      by apply crear_tabla_existente.
Qed.

End tablas.

(** ** ej3a1.py and ej3a2.py: partial updates *)

Section actualizacion.
Import Sqlite.





Lemma filter_vacio {A} (P : A → Prop) `{!∀ x, Decision (P x)} (l : list A) :
  filter P l = [] ↔ ∀ x, x ∈ l → ¬ P x.
Proof.
  split.
  - intros Hf x Hx HP. by apply (filter_nil_not_elem_of P l x).
  - intros Hn. apply elem_of_nil_inv.
    intros x [HP Hx]%list_elem_of_filter. by apply (Hn x).
Qed.









End actualizacion.


(** ** An update with nothing to update *)

Section actualizacion_vacia.
Import Sqlite.



End actualizacion_vacia.

(** ** Deleting a book *)

Section eliminacion.
Import Sqlite.





End eliminacion.

(** ** The joined listings and their order *)

Section listados.
Import Sqlite.

#[local] Instance por_titulo_trans : Transitive por_titulo.
Proof. intros x y z. unfold por_titulo. apply transitivity. Qed.

#[local] Instance por_titulo_total : Total por_titulo.
Proof. intros x y. unfold por_titulo. apply total, _. Qed.

#[local] Instance por_id_trans : Transitive por_id.
Proof. intros x y z. unfold por_id. lia. Qed.

#[local] Instance por_id_total : Total por_id.
Proof. intros x y. unfold por_id. lia. Qed.

(** Printing a line per element appends the lines, in order. *)
Lemma for_each_print {B X} (g : X → string) (xs : list X) (w : mundo B) :
  for_each xs (λ x, print (g x)) w =
    (Devuelve tt, Mundo (motor w) (salida w ++ (g <$> xs))).
Proof.
  revert w. induction xs as [|x xs IH]; intros w.
  - simpl. unfold mret, M_ret. rewrite app_nil_r. by destruct w.
  - simpl. erewrite bind_devuelve by reflexivity. rewrite IH. simpl.
    by rewrite <-app_assoc.
Qed.

Lemma consultar_libros_sano c js s :
  fallos c = [] → sql_join (vista c) = inr js →
  Ej3a1.consultar_libros (Mundo c s) =
    (Devuelve tt,
     Mundo c (s ++ Ej3a1.cabecera :: (linea_par <$> merge_sort por_titulo js))).
Proof.
  intros H Hj. unfold Ej3a1.consultar_libros. apply try_devuelve.
  erewrite bind_devuelve.
  2: { rewrite execute_select_sano by done. unfold sql_select_por_titulo.
       simpl. rewrite Hj. reflexivity. }
  erewrite bind_devuelve by reflexivity.
  rewrite for_each_print. simpl. rewrite <-list_fmap_compose, <-app_assoc.
  simpl. do 4 f_equal. apply list_fmap_ext. by intros i [l a] _.
Qed.

Lemma obtener_libros_sano c js s :
  fallos c = [] → sql_join (vista c) = inr js →
  Ej3a2.obtener_libros (Mundo c s) =
    (Devuelve (tupla_par <$> merge_sort por_id js), Mundo c s).
Proof.
  intros H Hj. unfold Ej3a2.obtener_libros. apply try_devuelve.
  rewrite execute_select_sano by done. unfold sql_select_por_id.
  simpl. rewrite Hj. do 2 f_equal. apply list_fmap_ext. by intros i [l a] _.
Qed.

(** C6.  On a healthy connection with both tables, the listing of
    [ej3a1] prints, after its header, one line per pair of the join of
    books and authors, in ascending order of title (byte by byte), and
    returns nothing; the listing of [ej3a2] returns one tuple per pair,
    in ascending order of book id, not of title.  Neither changes the
    connection, and the lines or tuples depend on the connection only,
    so a repeated call gives them again. *)
Theorem C6_listados_ordenados (c : conexion) (js : list (libro * autor)) :
  fallos c = [] →
  sql_join (vista c) = inr js →
  (∃ orden,
     orden ≡ₚ js ∧ StronglySorted por_titulo orden
     ∧ ∀ s, Ej3a1.consultar_libros (Mundo c s) =
              (Devuelve tt, Mundo c (s ++ Ej3a1.cabecera :: (linea_par <$> orden))))
  ∧ (∃ orden,
       orden ≡ₚ js ∧ StronglySorted por_id orden
       ∧ ∀ s, Ej3a2.obtener_libros (Mundo c s) =
                (Devuelve (tupla_par <$> orden), Mundo c s)).
Proof.
  intros H Hj. split.
  - exists (merge_sort por_titulo js).
    split; [apply merge_sort_Permutation|].
    split; [apply (StronglySorted_merge_sort _)|].
    intros s. by apply consultar_libros_sano.
  - exists (merge_sort por_id js).
    split; [apply merge_sort_Permutation|].
    split; [apply (StronglySorted_merge_sort _)|].
    intros s. by apply obtener_libros_sano.
Qed.

End listados.


(** ** Looking books up by the name of their author *)

Section busqueda.
Import Sqlite.

Lemma sql_join_elem d js l a :
  sql_join d = inr js → (l, a) ∈ js →
  ∃ tl ta, libros d = Some tl ∧ autores d = Some ta
    ∧ l ∈ filas tl ∧ a ∈ filas ta ∧ l_autor_id l = Some (a_id a).
Proof.
  unfold sql_join. destruct (libros d) as [tl|], (autores d) as [ta|]; try done.
  intros [= <-] Hin. exists tl, ta. do 2 (split; [done|]).
  apply list_elem_of_bind in Hin as (l' & Hp & Hl).
  apply list_elem_of_fmap in Hp as (a' & [= -> ->] & Ha).
  apply list_elem_of_filter in Ha as [Hid Ha]. done.
Qed.

Lemma sql_select_por_autor_vacio nombre d r :
  (∀ t a, autores d = Some t → a ∈ filas t → a_nombre a ≠ nombre) →
  sql_select_por_autor nombre d = inr r → r = [].
Proof.
  intros Hn. unfold sql_select_por_autor.
  destruct (sql_join d) as [e|js] eqn:Hj; [done|]. intros [= <-].
  rewrite (proj2 (filter_vacio _ js)); [done|].
  intros [l a] Hin Hnom.
  destruct (sql_join_elem _ _ _ _ Hj Hin) as (tl & ta & _ & Ha & _ & Hina & _).
  by apply (Hn ta a).
Qed.

Lemma buscar_1_sin_autor w nombre :
  (∀ t a, autores (vista (motor w)) = Some t → a ∈ filas t → a_nombre a ≠ nombre) →
  ∃ w', Ej3a1.buscar_libros_por_autor nombre w = (Devuelve [], w')
    ∧ disco (motor w') = disco (motor w)
    ∧ pendiente (motor w') = pendiente (motor w).
Proof.
  destruct w as [[d p f] s]. intros Hn.
  pose proof (λ r, sql_select_por_autor_vacio nombre _ r Hn) as Hv.
  unfold Ej3a1.buscar_libros_por_autor, try_except, execute_select, averia,
    print, leer, poner, raise_sql, lanzar, mbind, M_bind, mret, M_ret.
  simpl in *.
  destruct f as [|[] f]; simpl; eauto;
    destruct (sql_select_por_autor nombre (vista _)) as [e|r] eqn:Hs; simpl; eauto.
  all: rewrite (Hv r eq_refl); eauto.
Qed.

Import Mongo.

Lemma coincide_singleton k v (d : documento) :
  coincide {[ k := v ]} d ↔ d !! k = Some v.
Proof.
  unfold coincide.
  apply (map_Forall_singleton (λ k' v', d !! k' = Some v')).
Qed.

Lemma buscar_4_sin_autor w nombre :
  (∀ d, d ∈ col_autores (motor w) → d !! "nombre" ≠ Some (BString nombre)) →
  ∃ w', Ej3a4.buscar_libros_por_autor nombre w = (Devuelve [], w')
    ∧ col_autores (motor w') = col_autores (motor w)
    ∧ col_libros (motor w') = col_libros (motor w).
Proof.
  destruct w as [[au li tr co rs f] s]. simpl. intros Hn.
  assert (filter (coincide {[ "nombre" := BString nombre ]}) au = []) as Hf.
  { apply filter_vacio. intros d Hd Hc. apply coincide_singleton in Hc.
    by apply (Hn d). }
  unfold Ej3a4.buscar_libros_por_autor, try_except, find_one, averia,
    print, leer, poner, lanzar, mbind, M_bind, mret, M_ret.
  simpl.
  destruct f as [|[] f]; simpl; rewrite ?Hf; simpl; eauto.
Qed.

(** C2.  When no stored author has the given name the search returns
    the empty list: no [NotFoundError] (nor any other exception) reaches
    the caller, on either engine and whatever faults the engine meets;
    the stored data is as it was.  An author without books gives the
    same empty list. *)
Theorem C2_autor_inexistente_lista_vacia :
  (∀ w nombre,
     (∀ t a, autores (vista (motor w)) = Some t → a ∈ filas t →
             a_nombre a ≠ nombre) →
     ∃ w', Ej3a1.buscar_libros_por_autor nombre w = (Devuelve [], w')
       ∧ disco (motor w') = disco (motor w)
       ∧ pendiente (motor w') = pendiente (motor w))
  ∧ (∀ w nombre,
       (∀ d, d ∈ col_autores (motor w) → d !! "nombre" ≠ Some (BString nombre)) →
       ∃ w', Ej3a4.buscar_libros_por_autor nombre w = (Devuelve [], w')
         ∧ col_autores (motor w') = col_autores (motor w)
         ∧ col_libros (motor w') = col_libros (motor w)).
Proof. split; [apply buscar_1_sin_autor|apply buscar_4_sin_autor]. Qed.

End busqueda.

(** ** The transaction scopes *)

Section transacciones.
Import Sqlite.

(** What the scope of [ej3a1] can raise, and what it has done by then:
    only [sqlite3.Error]s, with the durable database untouched and
    nothing printed. *)
Lemma transaccion_cuerpo_1_lanza w e w1 :
  Ej3a1.transaccion_cuerpo w = (Lanza e, w1) →
  es_sqlite3_Error e = true ∧ disco (motor w1) = disco (motor w)
  ∧ salida w1 = salida w.
Proof.
  destruct w as [[d p f] s].
  unfold Ej3a1.transaccion_cuerpo, execute_begin, execute_dml, preparar, abrir, paso, commit,
    averia, print, leer, poner, raise_sql, lanzar, mbind, M_bind, mret, M_ret, vista.
  simpl. intros H.
  repeat (case_match; simplify_eq/=); auto.
Qed.

Lemma ejemplo_transaccion_1_lanza w e w1 :
  Ej3a1.transaccion_cuerpo w = (Lanza e, w1) →
  Ej3a1.ejemplo_transaccion w =
    (Devuelve tt,
     Mundo (Conexion (disco (motor w)) None (fallos (motor w1)))
           (salida w ++ ["Error en la transacción: " +:+ str_excepcion e;
                         "Transacción revertida."])).
Proof.
  intros H. destruct (transaccion_cuerpo_1_lanza w e w1 H) as (He & Hd & Hs).
  unfold Ej3a1.ejemplo_transaccion. rewrite (try_lanza _ _ _ _ _ _ H He).
  unfold mbind, M_bind, print, rollback, leer, poner. simpl.
  by rewrite Hd, Hs, <-app_assoc.
Qed.

Import Mongo.

Lemma mismas_trans w1 w2 w3 : mismas w1 w2 → mismas w2 w3 → mismas w1 w3.
Proof. intros [? ?] [? ?]. split; congruence. Qed.

Lemma conserva_bind {A C} (m : M base A) (f : A → M base C) :
  conserva m → (∀ a, conserva (f a)) → conserva (m ≫= f).
Proof.
  intros Hm Hf w r w'. unfold mbind, M_bind.
  destruct (m w) as [[a|e] w1] eqn:E.
  - intros H. eapply mismas_trans; [by eapply Hm|by eapply Hf].
  - intros [= <- <-]. by eapply Hm.
Qed.

Lemma conserva_ret {A} (a : A) : conserva (mret a).
Proof. by intros w r w' [= <- <-]. Qed.

Lemma conserva_print s : conserva (@print base s).
Proof. by intros w r w' [= <- <-]. Qed.

Lemma conserva_averia : conserva averia.
Proof.
  intros w r w'. unfold averia.
  destruct (averias (motor w)) as [|[] f]; by intros [= <- <-].
Qed.

Lemma conserva_con_id doc : conserva (con_id doc).
Proof.
  intros w r w'. unfold con_id.
  destruct (doc !! "_id"); by intros [= <- <-].
Qed.

Lemma conserva_insert_one c doc : conserva (insert_one_en_sesion c doc).
Proof.
  unfold insert_one_en_sesion.
  apply conserva_bind; [apply conserva_con_id|]. intros d.
  apply conserva_bind; [apply conserva_averia|]. intros _.
  intros w r w'. unfold mbind, M_bind, leer. simpl.
  destruct (replica_set (motor w)); [|by intros [= <- <-]].
  destruct (transaccion (motor w)) as [[a l]|]; [|by intros [= <- <-]].
  destruct (agregar d _); by intros [= <- <-].
Qed.

(** A commit that fails has written nothing. *)
Lemma commit_transaction_lanza w e w' :
  commit_transaction w = (Lanza e, w') → mismas w w'.
Proof.
  unfold commit_transaction, mbind, M_bind.
  destruct (averia w) as [[[]|e0] w0] eqn:E.
  - unfold leer. simpl. by destruct (transaccion (motor w0)) as [[a l]|].
  - intros [= <- <-]. by eapply conserva_averia.
Qed.

Lemma with_transaction_lanza {A} (m : M base A) w e w1 :
  conserva m →
  with_transaction m w = (Lanza e, w1) →
  mismas w w1 ∧ transaccion (motor w1) = None.
Proof.
  intros Hm. unfold with_transaction.
  rewrite (bind_devuelve start_transaction _ w tt _ eq_refl).
  set (w0 := Mundo _ _). unfold try_except, mbind at 1, M_bind at 1.
  destruct (m w0) as [[a|e0] w2] eqn:E.
  - unfold mbind, M_bind.
    destruct (commit_transaction w2) as [[[]|e1] w3] eqn:Ec; [done|].
    simpl. intros [= <- <-]. split; [|done].
    apply (mismas_trans _ w0); [done|].
    apply (mismas_trans _ w2); [by eapply Hm|].
    apply (mismas_trans _ w3); [by eapply commit_transaction_lanza|done].
  - simpl. intros [= <- <-]. split; [|done].
    apply (mismas_trans _ w0); [done|].
    apply (mismas_trans _ w2); [by eapply Hm|done].
Qed.

Lemma with_session_lanza {A} (m : M base A) w e w1 :
  with_session m w = (Lanza e, w1) →
  ∃ w0, m w = (Lanza e, w0) ∧ mismas w0 w1 ∧ transaccion (motor w1) = None.
Proof.
  unfold with_session, try_except, mbind at 1, M_bind at 1.
  destruct (m w) as [[a|e0] w0] eqn:E; [done|].
  simpl. intros [= <- <-]. by exists w0.
Qed.

(** What the scope of [ej3a4] leaves when it raises: the collections as
    they were, and no transaction. *)
Lemma transaccion_cuerpo_4_lanza w e w1 :
  Ej3a4.transaccion_cuerpo w = (Lanza e, w1) →
  mismas w w1 ∧ transaccion (motor w1) = None.
Proof.
  unfold Ej3a4.transaccion_cuerpo. intros H.
  apply with_session_lanza in H as (w0 & H & Hm & Ht).
  apply with_transaction_lanza in H as [Hm0 _].
  - split; [by eapply mismas_trans|done].
  - apply conserva_bind; [apply conserva_insert_one|]. intros id.
    apply conserva_bind; [apply conserva_insert_one|]. intros _.
    apply conserva_bind; [apply conserva_print|]. intros _.
    apply conserva_ret.
Qed.

Lemma ejemplo_transaccion_4_lanza w e w1 :
  Ej3a4.transaccion_cuerpo w = (Lanza e, w1) →
  Ej3a4.ejemplo_transaccion w =
    (Devuelve false,
     Mundo (motor w1) (salida w1 ++ ["Error en la transacción: " +:+ str_excepcion e])).
Proof.
  intros H. unfold Ej3a4.ejemplo_transaccion.
  by rewrite (try_lanza _ _ _ _ _ _ H eq_refl).
Qed.

(** C1.  When the transaction scope of [ejemplo_transaccion] raises, at
    whatever point, nothing of what it did remains: on sqlite3 the
    connection is rolled back to the durable database it started from,
    with no transaction open; on the document engine the two collections
    are as they were, with no transaction open.  The exception does not
    reach the caller: the function prints it and returns normally
    ([None] on sqlite3, [False] on the document engine). *)
Theorem C1_transaccion_revertida_sin_propagar :
  (∀ w e w1,
     Ej3a1.transaccion_cuerpo w = (Lanza e, w1) →
     Ej3a1.ejemplo_transaccion w =
       (Devuelve tt,
        Mundo (Conexion (disco (motor w)) None (Sqlite.fallos (motor w1)))
              (salida w ++ ["Error en la transacción: " +:+ str_excepcion e;
                            "Transacción revertida."])))
  ∧ (∀ w e w1,
       Ej3a4.transaccion_cuerpo w = (Lanza e, w1) →
       ∃ w2, Ej3a4.ejemplo_transaccion w = (Devuelve false, w2)
         ∧ col_autores (motor w2) = col_autores (motor w)
         ∧ col_libros (motor w2) = col_libros (motor w)
         ∧ transaccion (motor w2) = None).
Proof.
  split.
  - apply ejemplo_transaccion_1_lanza.
  - intros w e w1 H. eexists. split; [by apply ejemplo_transaccion_4_lanza|].
    destruct (transaccion_cuerpo_4_lanza w e w1 H) as [[Ha Hl] Ht]. done.
Qed.

End transacciones.

(** ** Opening the backing storage *)

Section almacenamiento.
Import Sqlite Ej3a2.

Lemma for_each_script script d d' sql s :
  correr script d = inr d' →
  for_each script (λ sentencia,
      x ← leer;
      match sentencia (default bd_vacia (archivo_bd x)) with
      | inl e => lanzar (SqliteError e.1 e.2)
      | inr d0 => poner (Sistema (Some d0) (archivo_sql x) (averias x))
      end) (Mundo (Sistema (Some d) sql []) s)
  = (Devuelve tt, Mundo (Sistema (Some d') sql []) s).
Proof.
  revert d. induction script as [|st script IH]; intros d; simpl.
  - by intros [= ->].
  - destruct (st d) as [e|d1] eqn:E; [done|]. intros H.
    erewrite bind_devuelve.
    2: { unfold mbind, M_bind, leer. simpl. rewrite E. reflexivity. }
    by apply IH.
Qed.

(** Whatever [biblioteca.db] held, [crear_bd_desde_sql] starts by
    removing it: from then on it runs as if there had been no file. *)
Lemma crear_bd_desde_sql_descarta anterior sql plan s :
  crear_bd_desde_sql (Mundo (Sistema anterior sql plan) s) =
    crear_bd_desde_sql (Mundo (Sistema None sql plan) s).
Proof. by destruct anterior. Qed.

Lemma crear_bd_desde_sql_sano anterior script d s :
  correr script bd_vacia = inr d →
  crear_bd_desde_sql (Mundo (Sistema anterior (Some script) []) s) =
    (Devuelve (Conexion d None []), Mundo (Sistema (Some d) (Some script) []) s).
Proof.
  intros H. rewrite crear_bd_desde_sql_descarta.
  unfold crear_bd_desde_sql. apply try_devuelve.
  do 4 (erewrite bind_devuelve by reflexivity; simpl).
  erewrite bind_devuelve.
  2: { unfold executescript. erewrite bind_devuelve by reflexivity.
       by apply for_each_script. }
  reflexivity.
Qed.

(** C4.  [crear_bd_desde_sql] always deletes the database file it
    finds, without being asked to: what it does and returns is the same
    whatever the file held, or had there been no file; when the script
    runs through on a healthy engine, the database returned is the
    script run on an empty database.  [crear_conexion] of [ej3a1] opens
    a new, empty in-memory database and touches no file. *)
Theorem C4_crear_bd_descarta_lo_anterior :
  (∀ anterior sql plan s,
     crear_bd_desde_sql (Mundo (Sistema anterior sql plan) s) =
       crear_bd_desde_sql (Mundo (Sistema None sql plan) s))
  ∧ (∀ anterior script d s,
       correr script bd_vacia = inr d →
       crear_bd_desde_sql (Mundo (Sistema anterior (Some script) []) s) =
         (Devuelve (Conexion d None []),
          Mundo (Sistema (Some d) (Some script) []) s))
  ∧ (∀ plan, Ej3a1.crear_conexion plan = Some (Conexion bd_vacia None plan)).
Proof.
  split; [apply crear_bd_desde_sql_descarta|].
  split; [apply crear_bd_desde_sql_sano|done].
Qed.

End almacenamiento.

(** ** ej3a4.py: inserting, and the two ways of reading the relation *)

Section documentos.
Import Mongo Ej3a4.

Lemma con_id_spec d w r w' :
  con_id d w = (r, w') →
  ∃ d', r = Devuelve d' ∧ enviado d d'
    ∧ salvo_contador (motor w) (motor w') ∧ salida w' = salida w.
Proof.
  unfold con_id. destruct (d !! "_id") as [v|] eqn:E.
  - intros [= <- <-]. exists d. split; [done|]. split; [left; eauto|done].
  - intros [= <- <-]. eexists. split; [done|]. split; [right; eauto|done].
Qed.

Lemma salvo_contador_trans b1 b2 b3 :
  salvo_contador b1 b2 → salvo_contador b2 b3 → salvo_contador b1 b3.
Proof. intros (?&?&?&?&?) (?&?&?&?&?). repeat split; congruence. Qed.

Lemma con_ids_spec ds w r w' :
  con_ids ds w = (r, w') →
  ∃ ds', r = Devuelve ds' ∧ Forall2 enviado ds ds'
    ∧ salvo_contador (motor w) (motor w') ∧ salida w' = salida w.
Proof.
  revert w r w'. induction ds as [|d ds IH]; intros w r w'; simpl.
  - intros [= <- <-]. exists []. by repeat split.
  - unfold mbind at 1, M_bind at 1.
    destruct (con_id d w) as [r1 w1] eqn:E1.
    apply con_id_spec in E1 as (d' & -> & Hd & Hs1 & Ho1).
    unfold mbind at 1, M_bind at 1.
    destruct (con_ids ds w1) as [r2 w2] eqn:E2.
    apply IH in E2 as (ds' & -> & Hds & Hs2 & Ho2).
    intros [= <- <-]. exists (d' :: ds'). split; [done|].
    split; [by constructor|]. split; [by eapply salvo_contador_trans|congruence].
Qed.

(** Writing documents in order appends a prefix of them, all of them
    when no one is refused, and touches nothing else. *)
Lemma insertar_en_orden_spec c ds w r w' :
  insertar_en_orden c ds w = (r, w') →
  ∃ k, docs c (motor w') = docs c (motor w) ++ take k ds
    ∧ (r = Devuelve tt → take k ds = ds)
    ∧ docs (otra c) (motor w') = docs (otra c) (motor w)
    ∧ averias (motor w') = averias (motor w)
    ∧ salida w' = salida w.
Proof.
  revert w r w'. induction ds as [|d ds IH]; intros w r w'; simpl.
  - intros [= <- <-]. exists 0%nat. rewrite app_nil_r. by repeat split.
  - unfold mbind at 1, M_bind at 1, leer.
    destruct (agregar d (docs c (motor w))) as [e|nuevos] eqn:E.
    + intros [= <- <-]. exists 0%nat. rewrite app_nil_r. by repeat split.
    + unfold agregar in E. case_decide as Hdup; [done|]. injection E as <-.
      unfold mbind at 1, M_bind at 1, poner. intros Hrun.
      apply IH in Hrun as (k & Hk & Hr & Ho & Ha & Hs).
      exists (S k). simpl.
      split; [rewrite Hk; destruct c; simpl; by rewrite <-app_assoc|].
      split; [intros Hd; by rewrite (Hr Hd)|].
      split; [rewrite Ho; by destruct c|].
      split; [rewrite Ha; by destruct c|done].
Qed.

Lemma averia_spec w r w' :
  averia w = (r, w') →
  col_autores (motor w') = col_autores (motor w)
  ∧ col_libros (motor w') = col_libros (motor w)
  ∧ salida w' = salida w
  ∧ (averias (motor w) = [] → r = Devuelve tt ∧ w' = w).
Proof.
  unfold averia. destruct (averias (motor w)) as [|[] f] eqn:E;
    intros [= <- <-]; by repeat split.
Qed.

(** What [insert_many] leaves, however it ends: a prefix of the
    documents sent is appended to the collection, the other collection
    is untouched; when it returns, all of them were appended and the
    result lists their [_id]s. *)
Lemma insert_many_spec c documentos w r w' :
  insert_many c documentos w = (r, w') →
  ∃ ds' k,
    Forall2 enviado documentos ds'
    ∧ docs c (motor w') = docs c (motor w) ++ take k ds'
    ∧ docs (otra c) (motor w') = docs (otra c) (motor w)
    ∧ (averias (motor w) = [] → averias (motor w') = [])
    ∧ (∀ ids, r = Devuelve ids →
         documentos ≠ [] ∧ take k ds' = ds'
         ∧ ids = (λ d, default BNull (d !! "_id")) <$> ds').
Proof.
  unfold insert_many. destruct documentos as [|d0 ds0].
  { intros [= <- <-]. exists [], 0%nat. rewrite app_nil_r.
    split; [constructor|]. by repeat split. }
  assert (d0 :: ds0 ≠ []) as Hne by done.
  set (ds := d0 :: ds0) in *. clearbody ds.
  unfold mbind at 1, M_bind at 1.
  destruct (con_ids ds w) as [r1 w1] eqn:E1.
  apply con_ids_spec in E1 as (ds' & -> & Hds & (Ha1 & Hl1 & _ & _ & Hf1) & _).
  unfold mbind at 1, M_bind at 1.
  destruct (averia w1) as [r2 w2] eqn:E2.
  apply averia_spec in E2 as (Ha2 & Hl2 & _ & Hf2).
  assert (∀ c0, docs c0 (motor w2) = docs c0 (motor w)) as Hdocs
    by (intros []; simpl; congruence).
  destruct r2 as [[]|e].
  2: { intros [= <- <-]. exists ds', 0%nat. rewrite app_nil_r.
       split; [done|]. split; [apply Hdocs|]. split; [apply Hdocs|].
       split; [|done]. intros Hf. rewrite Hf in Hf1.
       destruct (Hf2 Hf1) as [? _]. done. }
  unfold mbind at 1, M_bind at 1.
  destruct (insertar_en_orden c ds' w2) as [r3 w3] eqn:E3.
  apply insertar_en_orden_spec in E3 as (k & Hk & Hr & Ho & Ha3 & _).
  assert (averias (motor w) = [] → averias (motor w3) = []) as Hsano.
  { intros Hf. rewrite Hf in Hf1. destruct (Hf2 Hf1) as [_ ->]. congruence. }
  destruct r3 as [[]|e]; intros [= <- <-]; exists ds', k.
  - split; [done|]. rewrite Hk, Ho, !Hdocs. do 3 (split; [done|]).
    intros ids [= <-]. split; [done|]. split; [by apply Hr|done].
  - split; [done|]. rewrite Hk, Ho, !Hdocs. by repeat split.
Qed.

Lemma enviado_autor n d :
  enviado (doc_autor n) d →
  ∃ o, d !! "_id" = Some (BObjectId o) ∧ d !! "nombre" = Some (BString n).
Proof.
  unfold doc_autor. intros [[[v Hv] _]|[_ [o ->]]].
  - by rewrite lookup_singleton_ne in Hv.
  - exists o. split; [by rewrite lookup_insert_eq|].
    rewrite lookup_insert_ne by done. by rewrite lookup_singleton_eq.
Qed.

Lemma enviado_libro t a i d :
  enviado (doc_libro (t, a, i)) d →
  d !! "titulo" = Some (BString t) ∧ d !! "anio" = Some (BInt a)
  ∧ d !! "autor_id" = Some (BString i)
  ∧ ∃ o, d !! "_id" = Some (BObjectId o).
Proof.
  unfold doc_libro. intros [[[v Hv] _]|[_ [o ->]]].
  - by simplify_map_eq.
  - repeat split; [by simplify_map_eq..|]. exists o. by simplify_map_eq.
Qed.

(** Whatever [insertar_autores] returns, it appended to the authors a
    prefix of the documents sent, all of them when it returns their
    identifiers, and left the books alone. *)
Lemma insertar_autores_spec autores w r w' :
  Ej3a4.insertar_autores autores w = (r, w') →
  ∃ ids ds' k,
    r = Devuelve ids
    ∧ Forall2 enviado (doc_autor <$> autores) ds'
    ∧ col_autores (motor w') = col_autores (motor w) ++ take k ds'
    ∧ col_libros (motor w') = col_libros (motor w)
    ∧ (averias (motor w) = [] → averias (motor w') = [])
    ∧ (ids ≠ [] →
         take k ds' = ds'
         ∧ ids = (λ d, str_bson (default BNull (d !! "_id"))) <$> ds').
Proof.
  unfold Ej3a4.insertar_autores, try_except, mbind at 1, M_bind at 1.
  destruct (insert_many Autores (doc_autor <$> autores) w) as [r0 w0] eqn:E.
  apply insert_many_spec in E as (ds' & k & Hds & Hc & Ho & Hf & Hr).
  destruct r0 as [ids0|e]; simpl; intros [= <- <-]; simpl.
  - destruct (Hr ids0 eq_refl) as (_ & Hk & ->).
    eexists _, ds', k. split; [done|]. do 4 (split; [done|]).
    intros _. split; [done|]. by rewrite <-list_fmap_compose.
  - eexists _, ds', k. split; [done|]. by do 4 (split; [done|]).
Qed.

Lemma insertar_libros_spec libros w r w' :
  Ej3a4.insertar_libros libros w = (r, w') →
  ∃ ids ds' k,
    r = Devuelve ids
    ∧ Forall2 enviado (doc_libro <$> libros) ds'
    ∧ col_libros (motor w') = col_libros (motor w) ++ take k ds'
    ∧ col_autores (motor w') = col_autores (motor w)
    ∧ (averias (motor w) = [] → averias (motor w') = [])
    ∧ (ids ≠ [] →
         take k ds' = ds'
         ∧ ids = (λ d, str_bson (default BNull (d !! "_id"))) <$> ds').
Proof.
  unfold Ej3a4.insertar_libros, try_except, mbind at 1, M_bind at 1.
  destruct (insert_many Libros (doc_libro <$> libros) w) as [r0 w0] eqn:E.
  apply insert_many_spec in E as (ds' & k & Hds & Hc & Ho & Hf & Hr).
  destruct r0 as [ids0|e]; simpl; intros [= <- <-]; simpl.
  - destruct (Hr ids0 eq_refl) as (_ & Hk & ->).
    eexists _, ds', k. split; [done|]. do 4 (split; [done|]).
    intros _. split; [done|]. by rewrite <-list_fmap_compose.
  - eexists _, ds', k. split; [done|]. by do 4 (split; [done|]).
Qed.

(** A book whose [autor_id] is text is joined to no author identified
    by an [ObjectId]. *)
Lemma lookup_unwind_texto (nuevos autores : list documento) :
  (∀ a, a ∈ autores → ∃ o, a !! "_id" = Some (BObjectId o)) →
  (∀ l, l ∈ nuevos → ∃ s, l !! "autor_id" = Some (BString s)) →
  lookup_unwind nuevos autores = [].
Proof.
  intros Ha Hl. unfold lookup_unwind.
  induction nuevos as [|l nuevos IH]; [done|].
  rewrite bind_cons, IH by (intros l' Hl'; apply Hl; by right).
  rewrite app_nil_r.
  rewrite (proj2 (filter_vacio _ autores)); [done|].
  intros a Hin. destruct (Ha a Hin) as [o Ho], (Hl l) as [s Hs]; [by left|].
  by rewrite Ho, Hs.
Qed.

Lemma lookup_unwind_app (l1 l2 autores : list documento) :
  lookup_unwind (l1 ++ l2) autores =
    lookup_unwind l1 autores ++ lookup_unwind l2 autores.
Proof. unfold lookup_unwind. apply bind_app. Qed.

Lemma lookup_unwind_elem l a (libros autores : list documento) :
  (l, a) ∈ lookup_unwind libros autores →
  l ∈ libros ∧ a ∈ autores
  ∧ default BNull (a !! "_id") = default BNull (l !! "autor_id").
Proof.
  unfold lookup_unwind. intros Hin.
  apply list_elem_of_bind in Hin as (l' & Hp & Hl).
  apply list_elem_of_fmap in Hp as (a' & [= -> ->] & Ha).
  apply list_elem_of_filter in Ha as [Hid Ha]. done.
Qed.

(** The books inserted are not in the join, which is that of the books
    stored before. *)
Lemma insertados_fuera_del_join w0 autores r1 w1 libros r2 w2 :
  autores_con_oid (motor w0) →
  Ej3a4.insertar_autores autores w0 = (r1, w1) →
  Ej3a4.insertar_libros libros w1 = (r2, w2) →
  ∃ nuevos,
    col_libros (motor w2) = col_libros (motor w0) ++ nuevos
    ∧ autores_con_oid (motor w2)
    ∧ (∀ l a, l ∈ nuevos →
         (l, a) ∉ lookup_unwind (col_libros (motor w2)) (col_autores (motor w2)))
    ∧ lookup_unwind (col_libros (motor w2)) (col_autores (motor w2)) =
        lookup_unwind (col_libros (motor w0)) (col_autores (motor w2)).
Proof.
  intros Hoid H1 H2.
  apply insertar_autores_spec in H1
    as (ids & da & ka & -> & Hda & Haa & Hal & _ & _).
  apply insertar_libros_spec in H2
    as (ids2 & dl & kl & -> & Hdl & Hll & Hla & _ & _).
  assert (autores_con_oid (motor w2)) as Hoid2.
  { intros a. rewrite Hla, Haa. intros [Ha|Ha]%elem_of_app; [by apply Hoid|].
    apply elem_of_take in Ha as (j & Hj & _).
    destruct (Forall2_lookup_r _ _ _ _ _ Hda Hj) as (d & Hd & He).
    apply list_lookup_fmap_Some in Hd as (n & -> & _).
    destruct (enviado_autor _ _ He) as (o & Ho & _). eauto. }
  assert (∀ l, l ∈ take kl dl → ∃ s, l !! "autor_id" = Some (BString s)) as Htexto.
  { intros l Hl. apply elem_of_take in Hl as (j & Hj & _).
    destruct (Forall2_lookup_r _ _ _ _ _ Hdl Hj) as (d & Hd & He).
    apply list_lookup_fmap_Some in Hd as ([[t a] i] & -> & _).
    destruct (enviado_libro _ _ _ _ He) as (_ & _ & Hi & _). eauto. }
  exists (take kl dl). rewrite Hll, Hal. split; [done|]. split; [done|].
  split.
  - intros l a Hl Hin. apply lookup_unwind_elem in Hin as (_ & Ha & Heq).
    destruct (Hoid2 a Ha) as [o Ho], (Htexto l Hl) as [s Hs].
    by rewrite Ho, Hs in Heq.
  - by rewrite lookup_unwind_app, (lookup_unwind_texto (take kl dl)), app_nil_r.
Qed.

(** The queries on a healthy engine. *)
Lemma averia_sana w : averias (motor w) = [] → averia w = (Devuelve tt, w).
Proof. intros H. unfold averia. by rewrite H. Qed.

Lemma aggregate_libros_sano w :
  averias (motor w) = [] →
  aggregate_libros w =
    (Devuelve (merge_sort por_titulo
                 (project <$> lookup_unwind (col_libros (motor w))
                                            (col_autores (motor w)))), w).
Proof.
  intros H. unfold aggregate_libros.
  by rewrite (bind_devuelve _ _ _ _ _ (averia_sana w H)).
Qed.

Lemma find_one_sano c filtro w :
  averias (motor w) = [] →
  find_one c filtro w =
    (Devuelve (head (filter (coincide filtro) (docs c (motor w)))), w).
Proof.
  intros H. unfold find_one.
  by rewrite (bind_devuelve _ _ _ _ _ (averia_sana w H)).
Qed.

Lemma find_sano c filtro campos w :
  averias (motor w) = [] →
  find c filtro campos w =
    (Devuelve ((λ d : documento, filter (λ kv, kv.1 ∈ campos) d)
                 <$> filter (coincide filtro) (docs c (motor w))), w).
Proof.
  intros H. unfold find.
  by rewrite (bind_devuelve _ _ _ _ _ (averia_sana w H)).
Qed.

(** From an engine with no joined pair, the listing is its header. *)
Lemma consultar_libros_sin_pares w :
  averias (motor w) = [] →
  lookup_unwind (col_libros (motor w)) (col_autores (motor w)) = [] →
  Ej3a4.consultar_libros w =
    (Devuelve tt, Mundo (motor w) (salida w ++ [Ej3a4.cabecera])).
Proof.
  intros H Hv. unfold Ej3a4.consultar_libros. apply try_devuelve.
  rewrite (bind_devuelve _ _ _ _ _ (aggregate_libros_sano w H)).
  rewrite Hv. reflexivity.
Qed.

(** The first element that satisfies [P] heads the filtered list. *)
Lemma head_filter_primero {A} (P : A → Prop) `{!∀ x, Decision (P x)}
    (l : list A) k x :
  l !! k = Some x → P x →
  (∀ j y, (j < k)%nat → l !! j = Some y → ¬ P y) →
  head (filter P l) = Some x.
Proof.
  revert k. induction l as [|z l IH]; intros k Hk HP Hantes; [done|].
  destruct k as [|k]; simpl in Hk.
  - injection Hk as ->. by rewrite filter_cons_True.
  - rewrite filter_cons_False by (apply (Hantes 0%nat); [lia|done]).
    apply (IH k); [done..|].
    intros j y Hj Hy. apply (Hantes (S j)); [lia|done].
Qed.

(** The pairs read off documents that hold both fields. *)
Lemma tuplas_completas (ds : list documento) w :
  (∀ d, d ∈ ds → is_Some (d !! "titulo") ∧ is_Some (d !! "anio")) →
  Ej3a4.tuplas ds w =
    (Devuelve ((λ d : documento,
                  (default BNull (d !! "titulo"), default BNull (d !! "anio")))
                 <$> ds), w).
Proof.
  induction ds as [|d ds IH]; intros H; [done|].
  destruct (H d) as [[t Ht] [a Ha]]; [by left|].
  simpl. unfold getitem. rewrite Ht, Ha.
  do 2 (erewrite bind_devuelve by reflexivity).
  erewrite bind_devuelve by (apply IH; intros d' Hd'; apply H; by right).
  reflexivity.
Qed.

(** The search by name does find a book inserted with the identifier
    that [insertar_autores] returned for the author of that name. *)
Lemma buscar_encuentra w0 autores ids w1 libros ids2 w2 k n i t a :
  averias (motor w0) = [] →
  Ej3a4.insertar_autores autores w0 = (Devuelve ids, w1) →
  Ej3a4.insertar_libros libros w1 = (Devuelve ids2, w2) →
  ids2 ≠ [] →
  autores !! k = Some n → ids !! k = Some i →
  (∀ j, (j < k)%nat → autores !! j ≠ Some n) →
  (∀ d, d ∈ col_autores (motor w0) → d !! "nombre" ≠ Some (BString n)) →
  (∀ d, d ∈ col_libros (motor w0) → d !! "autor_id" ≠ Some (BString i)) →
  (t, a, i) ∈ libros →
  ∃ res, Ej3a4.buscar_libros_por_autor n w2 = (Devuelve res, w2)
    ∧ (BString t, BInt a) ∈ res.
Proof.
  intros Hsano H1 H2 Hids2 Hn Hi Hprimero Hfresco Hsin Hlibro.
  apply insertar_autores_spec in H1
    as (ids' & da & ka & [= <-] & Hda & Haa & Hal & Hs1 & Hra).
  destruct Hra as [Hka ->]; [by intros ->|]. rewrite Hka in Haa.
  apply insertar_libros_spec in H2
    as (ids2' & dl & kl & [= <-] & Hdl & Hll & Hla & Hs2 & Hrl).
  destruct Hrl as [Hkl _]; [done|]. rewrite Hkl in Hll.
  assert (averias (motor w2) = []) as Hsano2 by auto.
  (* the author's document *)
  apply list_lookup_fmap_Some in Hi as (dk & -> & Hdk).
  destruct (Forall2_lookup_r _ _ _ _ _ Hda Hdk) as (d0 & Hd0 & Hek).
  apply list_lookup_fmap_Some in Hd0 as (n0 & -> & Hn0).
  assert (n0 = n) as -> by congruence.
  destruct (enviado_autor _ _ Hek) as (o & Ho & Hnom).
  rewrite Ho in *. simpl in *.
  (* find_one returns it *)
  assert (head (filter (coincide {[ "nombre" := BString n ]})
                       (col_autores (motor w2))) = Some dk) as Hhead.
  { rewrite Hla, Haa, filter_app.
    rewrite (proj2 (filter_vacio _ (col_autores (motor w0)))).
    2: { intros d Hd Hc%coincide_singleton. by apply (Hfresco d). }
    apply (head_filter_primero _ _ k); [done|by apply coincide_singleton|].
    intros j y Hj Hy Hc%coincide_singleton.
    destruct (Forall2_lookup_r _ _ _ _ _ Hda Hy) as (dj & Hdj & Hej).
    apply list_lookup_fmap_Some in Hdj as (nj & -> & Hnj).
    destruct (enviado_autor _ _ Hej) as (_ & _ & Hnomj).
    rewrite Hnomj in Hc. injection Hc as ->. by apply (Hprimero j). }
  (* the books it selects *)
  set (ms := filter (coincide {[ "autor_id" := BString (str_oid o) ]}) dl).
  assert (filter (coincide {[ "autor_id" := BString (str_oid o) ]})
                 (col_libros (motor w2)) = ms) as Hms.
  { rewrite Hll, Hal, filter_app.
    rewrite (proj2 (filter_vacio _ (col_libros (motor w0)))); [done|].
    intros d Hd Hc%coincide_singleton. by apply (Hsin d). }
  assert (∀ d, d ∈ dl → ∃ t' a' i',
            d !! "titulo" = Some (BString t') ∧ d !! "anio" = Some (BInt a')
            ∧ d !! "autor_id" = Some (BString i') ∧ (t', a', i') ∈ libros)
    as Hcampos.
  { intros d [j Hj]%list_elem_of_lookup.
    destruct (Forall2_lookup_r _ _ _ _ _ Hdl Hj) as (d' & Hd' & He).
    apply list_lookup_fmap_Some in Hd' as ([[t' a'] i'] & -> & Hl').
    destruct (enviado_libro _ _ _ _ He) as (? & ? & ? & _).
    exists t', a', i'. repeat split; try done.
    apply list_elem_of_lookup. eauto. }
  set (proy := λ d : documento, filter (λ kv, kv.1 ∈ ["titulo"; "anio"]) d).
  assert (∀ d v, d !! "titulo" = Some v → proy d !! "titulo" = Some v) as Hpt.
  { intros d v Hv. apply map_lookup_filter_Some_2; [done|]. simpl. set_solver. }
  assert (∀ d v, d !! "anio" = Some v → proy d !! "anio" = Some v) as Hpa.
  { intros d v Hv. apply map_lookup_filter_Some_2; [done|]. simpl. set_solver. }
  eexists. split.
  - unfold Ej3a4.buscar_libros_por_autor. apply try_devuelve.
    rewrite (bind_devuelve _ _ _ _ _ (find_one_sano _ _ w2 Hsano2)).
    simpl. rewrite Hhead.
    case_decide as Hvacio; [by rewrite Hvacio, lookup_empty in Ho|].
    unfold getitem at 1. rewrite Ho.
    erewrite bind_devuelve by reflexivity.
    rewrite (bind_devuelve _ _ _ _ _ (find_sano _ _ _ w2 Hsano2)).
    simpl. rewrite Hms. fold proy.
    erewrite bind_devuelve; [reflexivity|].
    apply tuplas_completas.
    intros d' (d & -> & Hd)%list_elem_of_fmap.
    apply list_elem_of_filter in Hd as [_ Hd].
    destruct (Hcampos d Hd) as (t' & a' & i' & Ht' & Ha' & _).
    split; eexists; eauto.
  - (* the book at hand is among them *)
    apply list_elem_of_lookup in Hlibro as [j Hj].
    assert ((doc_libro <$> libros) !! j = Some (doc_libro (t, a, str_oid o)))
      as Hdj by (by rewrite list_lookup_fmap, Hj).
    destruct (Forall2_lookup_l _ _ _ _ _ Hdl Hdj) as (d & Hd & He).
    destruct (enviado_libro _ _ _ _ He) as (Ht & Ha & Hid & _).
    apply list_elem_of_fmap. exists (proy d). split.
    + by rewrite (Hpt d _ Ht), (Hpa d _ Ha).
    + apply list_elem_of_fmap. exists d. split; [done|].
      apply list_elem_of_filter. split; [by apply coincide_singleton|].
      apply list_elem_of_lookup. eauto.
Qed.

Lemma insertar_libros_nuevos libros w ids w' :
  Ej3a4.insertar_libros libros w = (Devuelve ids, w') → ids ≠ [] →
  ∃ nuevos, col_libros (motor w') = col_libros (motor w) ++ nuevos
    ∧ Forall2 documento_de nuevos libros.
Proof.
  intros H Hids.
  apply insertar_libros_spec in H as (ids' & dl & kl & [= <-] & Hdl & Hll & _ & _ & Hr).
  destruct (Hr Hids) as [Hk _]. rewrite Hk in Hll.
  exists dl. split; [done|].
  rewrite Forall2_fmap_l in Hdl. apply Forall2_flip.
  eapply Forall2_impl; [exact Hdl|].
  intros [[t a] i] d He. destruct (enviado_libro _ _ _ _ He) as (? & ? & ? & _).
  done.
Qed.

(** C9.  Take a healthy engine whose authors are identified by
    [ObjectId]s, insert authors with [insertar_autores], then books with
    [insertar_libros], both with success.  The books are stored, each
    with its [autor_id] as text; none of them is paired with any author
    by the aggregation of [consultar_libros], whose result is the one
    the books stored before give, so that on a library that had no
    books the listing is its header and nothing more.  Yet
    [buscar_libros_por_autor] by the name of an inserted author returns
    the books inserted with the identifier that [insertar_autores]
    returned for that author (the name being new to the collection, and
    no earlier book holding that identifier). *)
Theorem C9_insertados_sin_listar_pero_hallados
    (w0 w1 w2 : mundo base) (autores ids : list string)
    (libros : list (string * Z * string)) (ids2 : list string) :
  averias (motor w0) = [] →
  autores_con_oid (motor w0) →
  Ej3a4.insertar_autores autores w0 = (Devuelve ids, w1) →
  Ej3a4.insertar_libros libros w1 = (Devuelve ids2, w2) →
  ids2 ≠ [] →
  (∃ nuevos,
     col_libros (motor w2) = col_libros (motor w0) ++ nuevos
     ∧ Forall2 documento_de nuevos libros
     ∧ (∀ l a, l ∈ nuevos →
          (l, a) ∉ lookup_unwind (col_libros (motor w2)) (col_autores (motor w2)))
     ∧ aggregate_libros w2 =
         (Devuelve (merge_sort por_titulo
                      (project <$> lookup_unwind (col_libros (motor w0))
                                                 (col_autores (motor w2)))), w2)
     ∧ (col_libros (motor w0) = [] →
        Ej3a4.consultar_libros w2 =
          (Devuelve tt, Mundo (motor w2) (salida w2 ++ [Ej3a4.cabecera]))))
  ∧ (∀ k n i t a,
       autores !! k = Some n → ids !! k = Some i →
       (∀ j, (j < k)%nat → autores !! j ≠ Some n) →
       (∀ d, d ∈ col_autores (motor w0) → d !! "nombre" ≠ Some (BString n)) →
       (∀ d, d ∈ col_libros (motor w0) → d !! "autor_id" ≠ Some (BString i)) →
       (t, a, i) ∈ libros →
       ∃ res, Ej3a4.buscar_libros_por_autor n w2 = (Devuelve res, w2)
         ∧ (BString t, BInt a) ∈ res).
Proof.
  intros Hsano Hoid H1 H2 Hids2. split.
  - destruct (insertados_fuera_del_join _ _ _ _ _ _ _ Hoid H1 H2)
      as (nuevos & Hcol & _ & Hfuera & Hjoin).
    destruct (insertar_libros_nuevos _ _ _ _ H2 Hids2) as (nuevos' & Hcol' & Hdocs).
    assert (col_libros (motor w1) = col_libros (motor w0)) as Hl1.
    { apply insertar_autores_spec in H1 as (? & ? & ? & _ & _ & _ & Hl & _). done. }
    assert (nuevos' = nuevos) as ->.
    { rewrite Hl1, Hcol in Hcol'. by apply app_inv_head in Hcol'. }
    assert (averias (motor w2) = []) as Hsano2.
    { apply insertar_autores_spec in H1 as (? & ? & ? & _ & _ & _ & _ & Hs1 & _).
      apply insertar_libros_spec in H2 as (? & ? & ? & _ & _ & _ & _ & Hs2 & _).
      auto. }
    exists nuevos. do 3 (split; [done|]). split.
    + rewrite aggregate_libros_sano by done. by rewrite Hjoin.
    + intros Hvacio. apply consultar_libros_sin_pares; [done|].
      by rewrite Hjoin, Hvacio.
  - intros k n i t a ??????. by eapply buscar_encuentra.
Qed.

(** C10.  Whatever the identifier and the fields given, [ej3a4]'s
    [actualizar_libro] and [eliminar_libro] return [False] and leave
    the engine exactly as it was: no document changes, and no round trip
    to the server is made.  Unless no field was given, what stops them
    is the [AttributeError] raised on building the filter with
    [pymongo.ObjectId], which the function prints. *)
Theorem C10_actualizar_eliminar_siempre_falso
    (w : mundo base) (id_libro : string)
    (nuevo_titulo : option string) (nuevo_anio : option Z) :
  Ej3a4.actualizar_libro id_libro nuevo_titulo nuevo_anio w =
    (Devuelve false,
     Mundo (motor w)
           (salida w ++
              [match nuevo_titulo, nuevo_anio with
               | None, None => "No se proporcionaron campos para actualizar."
               | _, _ => "Error al actualizar libro: " +:+ mensaje_ObjectId
               end]))
  ∧ Ej3a4.eliminar_libro id_libro w =
      (Devuelve false,
       Mundo (motor w)
             (salida w ++ ["Error al eliminar libro: " +:+ mensaje_ObjectId])).
Proof.
  split; [|apply eliminar_libro_eq].
  destruct nuevo_titulo as [t|] eqn:Et, nuevo_anio as [a|] eqn:Ea;
    [rewrite actualizar_libro_campos by (left; eauto)
    |rewrite actualizar_libro_campos by (left; eauto)
    |rewrite actualizar_libro_campos by (right; eauto)
    |rewrite actualizar_libro_vacio]; reflexivity.
Qed.

End documentos.


(** * Inserting, adding and listing *)

(** ** The sqlite3 engine, whatever it does *)

Section motor_sqlite.
Import Sqlite.






End motor_sqlite.

(** ** ej3a1.py: inserting authors and books *)

Section altas.
Import Sqlite.






End altas.

Section altas_filas.
Import Sqlite.

Lemma foldr_max_cota (s : Z) (l : list Z) :
  s ≤ foldr Z.max s l ∧ ∀ x, x ∈ l → x ≤ foldr Z.max s l.
Proof.
  induction l as [|y l [IH1 IH2]]; simpl.
  - split; [lia|]. intros x Hx. by apply elem_of_nil in Hx.
  - split; [lia|]. intros x [->|Hx]%elem_of_cons; [lia|].
    specialize (IH2 x Hx). lia.
Qed.




Lemma length_filas_desde {F X} (fila : Z → X → F) k xs :
  length (filas_desde fila k xs) = length xs.
Proof.
  revert k. induction xs as [|x xs IH]; intros k; simpl; [done|]. by rewrite IH.
Qed.










End altas_filas.

(** ** ej3a1.py: the transaction when nothing fails, and the search *)

Section transaccion_completa.
Import Sqlite.

Lemma sql_join_pares d tl ta l a :
  libros d = Some tl → autores d = Some ta →
  ∃ js, sql_join d = inr js
    ∧ ((l, a) ∈ js ↔
       l ∈ filas tl ∧ a ∈ filas ta ∧ l_autor_id l = Some (a_id a)).
Proof.
  intros Hl Ha. unfold sql_join. rewrite Hl, Ha. eexists. split; [done|].
  rewrite list_elem_of_bind. split.
  - intros (l' & Hp & Hin).
    apply list_elem_of_fmap in Hp as (a' & [= -> ->] & Hf).
    apply list_elem_of_filter in Hf as [Hid Hf]. done.
  - intros (Hin & Hf & Hid). exists l. split; [|done].
    apply list_elem_of_fmap. exists a. split; [done|].
    by apply list_elem_of_filter.
Qed.

(** What the search of [ej3a1] returns on a healthy connection. *)
Lemma buscar_1_sano w nombre tl ta :
  fallos (motor w) = [] →
  libros (vista (motor w)) = Some tl →
  autores (vista (motor w)) = Some ta →
  ∃ res,
    Ej3a1.buscar_libros_por_autor nombre w = (Devuelve res, w)
    ∧ ∀ ti an,
        (ti, an) ∈ res ↔
        ∃ l a, l ∈ filas tl ∧ a ∈ filas ta
          ∧ l_autor_id l = Some (a_id a) ∧ a_nombre a = nombre
          ∧ l_titulo l = ti ∧ l_anio l = an.
Proof.
  intros H Hl Ha.
  destruct (sql_join (vista (motor w))) as [e|js] eqn:Hj.
  { unfold sql_join in Hj. by rewrite Hl, Ha in Hj. }
  eexists. split.
  - unfold Ej3a1.buscar_libros_por_autor. apply try_devuelve.
    erewrite bind_devuelve; [reflexivity|].
    rewrite execute_select_sano by done.
    unfold sql_select_por_autor. rewrite Hj. reflexivity.
  - intros ti an. rewrite list_elem_of_fmap. split.
    + intros ([l a] & [= -> ->] & Hf).
      apply list_elem_of_filter in Hf as [Hn Hin].
      destruct (sql_join_pares _ _ _ l a Hl Ha) as (js' & Hj' & Hiff).
      rewrite Hj in Hj'. injection Hj' as <-.
      apply Hiff in Hin as (? & ? & ?). by exists l, a.
    + intros (l & a & Hil & Hia & Hid & Hn & <- & <-).
      exists (l, a). split; [done|].
      apply list_elem_of_filter. split; [done|].
      destruct (sql_join_pares _ _ _ l a Hl Ha) as (js' & Hj' & Hiff).
      rewrite Hj in Hj'. injection Hj' as <-. by apply Hiff.
Qed.

(** On a healthy connection with both tables, [buscar_libros_por_autor]
    of [ej3a1] returns a pair (title, year) exactly for the books that
    refer to an author of the given name, of every author of that name
    when several have it, and does not change the connection. *)
Theorem buscar_libros_por_autor_exacto
    (w : mundo conexion) (nombre : string) (tl : tabla libro) (ta : tabla autor) :
  fallos (motor w) = [] →
  libros (vista (motor w)) = Some tl →
  autores (vista (motor w)) = Some ta →
  ∃ res,
    Ej3a1.buscar_libros_por_autor nombre w = (Devuelve res, w)
    ∧ ∀ ti an,
        (ti, an) ∈ res ↔
        ∃ l a, l ∈ filas tl ∧ a ∈ filas ta
          ∧ l_autor_id l = Some (a_id a) ∧ a_nombre a = nombre
          ∧ l_titulo l = ti ∧ l_anio l = an.
Proof. apply buscar_1_sano. Qed.



(** Called while a transaction is open, [ejemplo_transaccion] inserts
    nothing: its [BEGIN] is refused, and the rollback of its handler
    discards what the open transaction had done. *)
Theorem ejemplo_transaccion_anidada (w : mundo conexion) (d : bd) :
  fallos (motor w) = [] →
  pendiente (motor w) = Some d →
  Ej3a1.ejemplo_transaccion w =
    (Devuelve tt,
     Mundo (Conexion (disco (motor w)) None [])
           (salida w ++
              ["Error en la transacción: cannot start a transaction within a transaction";
               "Transacción revertida."])).
Proof.
  destruct w as [[dk p fl] s]. simpl. intros -> ->.
  unfold Ej3a1.ejemplo_transaccion, try_except, Ej3a1.transaccion_cuerpo.
  rewrite (bind_lanza _ _ _
             (SqliteError OperationalError
                "cannot start a transaction within a transaction")
             (Mundo (Conexion dk (Some d) []) s)) by reflexivity.
  simpl. unfold mbind, M_bind, print, rollback, leer, poner. simpl.
  by rewrite <-app_assoc.
Qed.

End transaccion_completa.

(** ** ej3a2.py: adding a book, and the listings after it *)

Section agregar.
Import Sqlite.








Lemma obtener_autores_sano c ta s :
  fallos c = [] → autores (vista c) = Some ta →
  Ej3a2.obtener_autores (Mundo c s) =
    (Devuelve ((λ a, (a_id a, a_nombre a)) <$> merge_sort autor_por_id (filas ta)),
     Mundo c s).
Proof.
  intros H Ha. unfold Ej3a2.obtener_autores. apply try_devuelve.
  rewrite execute_select_sano by done. unfold sql_select_autores.
  simpl. by rewrite Ha.
Qed.

#[local] Instance autor_por_id_trans : Transitive autor_por_id.
Proof. intros x y z. unfold autor_por_id. lia. Qed.

#[local] Instance autor_por_id_total : Total autor_por_id.
Proof. intros x y. unfold autor_por_id. lia. Qed.

(** [obtener_autores] never raises and never writes.  On a healthy
    connection it returns every author of the table once, those without
    books too, as (id, name) in ascending order of id, and leaves the
    connection as it was; when the table is missing it returns the empty
    list and prints the error. *)
Theorem obtener_autores_ordenados :
  (∀ w, ∃ res w',
     Ej3a2.obtener_autores w = (Devuelve res, w')
     ∧ disco (motor w') = disco (motor w)
     ∧ pendiente (motor w') = pendiente (motor w))
  ∧ (∀ c ta s,
       fallos c = [] → autores (vista c) = Some ta →
       ∃ orden,
         orden ≡ₚ filas ta ∧ StronglySorted autor_por_id orden
         ∧ Ej3a2.obtener_autores (Mundo c s) =
             (Devuelve ((λ a, (a_id a, a_nombre a)) <$> orden), Mundo c s))
  ∧ (∀ c s,
       fallos c = [] → autores (vista c) = None →
       Ej3a2.obtener_autores (Mundo c s) =
         (Devuelve [],
          Mundo c (s ++ ["Error al obtener autores: no such table: autores"]))).
Proof.
  split; [|split].
  - intros [[dk p fl] s].
    unfold Ej3a2.obtener_autores, try_except, execute_select, averia, print,
      raise_sql, lanzar, leer, mbind, M_bind, mret, M_ret.
    simpl. repeat (case_match; simplify_eq/=); eauto.
  - intros c ta s H Ha. exists (merge_sort autor_por_id (filas ta)).
    split; [apply merge_sort_Permutation|].
    split; [apply (StronglySorted_merge_sort _)|].
    by apply obtener_autores_sano.
  - intros c s H Ha. unfold Ej3a2.obtener_autores.
    rewrite (try_lanza _ _ _ _
               (SqliteError OperationalError "no such table: autores")
               (Mundo c s)); [reflexivity| |reflexivity].
    rewrite execute_select_sano by done. unfold sql_select_autores.
    simpl. by rewrite Ha.
Qed.


End agregar.

(** ** ej3a2.py: the script file is missing *)

Section sin_script.
Import Sqlite Ej3a2.


End sin_script.

(** ** No exception escapes, no transaction is left open *)

Section sin_excepciones.
Import Sqlite.



(** A handler that prints and rolls back. *)
Lemma manejador_rollback s e w :
  (print (s +:+ str_excepcion e) ;; rollback) w =
    (Devuelve tt,
     Mundo (Conexion (disco (motor w)) None (fallos (motor w)))
           (salida w ++ [s +:+ str_excepcion e])).
Proof. reflexivity. Qed.













End sin_excepciones.

(** ** The primary keys stay unique *)

Section claves.
Import Sqlite.

(** The statements keep the keys. *)
Lemma clave_crear_tabla {F} (id : F → Z) (o : option (tabla F)) t :
  (∀ t0, o = Some t0 → clave id t0) → crear_tabla o = Some t → clave id t.
Proof.
  destruct o as [t0|]; simpl.
  - intros H [= <-]. by apply H.
  - intros _ [= <-]. split; simpl; [constructor|].
    intros x Hx. by apply elem_of_nil in Hx.
Qed.

Lemma integra_create_autores d : integra d → integra (sql_create_autores d).
Proof.
  intros [Ha Hl]. split; simpl; [|done].
  intros t. by apply clave_crear_tabla.
Qed.

Lemma integra_create_libros d : integra d → integra (sql_create_libros d).
Proof.
  intros [Ha Hl]. split; simpl; [done|].
  intros t. by apply clave_crear_tabla.
Qed.

Lemma clave_alta {F} (id : F → Z) (t : tabla F) (x : F) :
  id x = tope id t + 1 →
  clave id t → clave id (Tabla (filas t ++ [x]) (tope id t + 1)).
Proof.
  intros Hx [Hnd Hsec].
  assert (∀ y, y ∈ filas t → id y ≤ tope id t) as Hcota.
  { intros y Hy. apply foldr_max_cota, list_elem_of_fmap. eauto. }
  split; simpl.
  - rewrite fmap_app. apply NoDup_app. split; [done|]. split.
    + intros z Hz Hz'. simpl in Hz'. apply list_elem_of_singleton in Hz' as ->.
      apply list_elem_of_fmap in Hz as (y & Hy & Hin).
      specialize (Hcota y Hin). lia.
    + simpl. apply NoDup_singleton.
  - intros y [Hy|Hy]%elem_of_app.
    + specialize (Hcota y Hy). lia.
    + apply list_elem_of_singleton in Hy as ->. lia.
Qed.

Lemma integra_insert_autor n : conserva_bd (sql_insert_autor n).
Proof.
  intros d d' a [Ha Hl]. unfold sql_insert_autor.
  destruct (autores d) as [t|] eqn:Et; [|done]. destruct n as [n|]; [|done].
  unfold nuevo_rowid. fold (tope a_id t). case_decide; [done|].
  intros [= <- <-]. split; simpl; [|done].
  intros t0 [= <-]. apply clave_alta; [done|]. by apply Ha.
Qed.

Lemma integra_insert_libro p : conserva_bd (sql_insert_libro p).
Proof.
  intros d d' a [Ha Hl]. destruct p as [[ti an] au]. unfold sql_insert_libro.
  destruct (libros d) as [t|] eqn:Et; [|done]. destruct ti as [ti|]; [|done].
  unfold nuevo_rowid. fold (tope l_id t). case_decide; [done|].
  intros [= <- <-]. split; simpl; [done|].
  intros t0 [= <-]. apply clave_alta; [done|]. by apply Hl.
Qed.

Lemma l_id_asignar l campos : l_id (foldl asignar l campos) = l_id l.
Proof.
  revert l. induction campos as [|c cs IH]; intros l; [done|].
  simpl. rewrite IH. by destruct c.
Qed.

Lemma integra_update_libros campos id : conserva_bd (sql_update_libros campos id).
Proof.
  intros d d' a [Ha Hl]. unfold sql_update_libros.
  destruct (libros d) as [t|] eqn:Et; [|done].
  intros [= <- <-]. split; simpl; [done|].
  intros t0 [= <-]. destruct (Hl t eq_refl) as [Hnd Hsec].
  set (f := λ l, if decide (l_id l = id) then foldl asignar l campos else l).
  assert (∀ l, l_id (f l) = l_id l) as Hf.
  { intros l. unfold f. case_decide; [apply l_id_asignar|done]. }
  split; simpl.
  - rewrite <-list_fmap_compose.
    rewrite (list_fmap_ext (l_id ∘ f) l_id (filas t)); [done|].
    intros i l _. apply Hf.
  - intros l' (l & -> & Hin)%list_elem_of_fmap. rewrite Hf. by apply Hsec.
Qed.

Lemma integra_delete_libro id : conserva_bd (sql_delete_libro id).
Proof.
  intros d d' a [Ha Hl]. unfold sql_delete_libro.
  destruct (libros d) as [t|] eqn:Et; [|done].
  intros [= <- <-]. split; simpl; [done|].
  intros t0 [= <-]. destruct (Hl t eq_refl) as [Hnd Hsec].
  split; simpl.
  - eapply sublist_NoDup; [exact Hnd|].
    apply fmap_sublist, sublist_filter.
  - intros l [_ Hin]%list_elem_of_filter. by apply Hsec.
Qed.

(** The calls keep them. *)
Lemma mantiene_ret {A} (a : A) : mantiene (mret a).
Proof. by intros w r w' H [= <- <-]. Qed.

Lemma mantiene_bind {A C} (m : M conexion A) (f : A → M conexion C) :
  mantiene m → (∀ a, mantiene (f a)) → mantiene (m ≫= f).
Proof.
  intros Hm Hf w r w' Hw. unfold mbind, M_bind.
  destruct (m w) as [[a|e] w1] eqn:E.
  - intros H. eapply Hf; [|exact H]. by eapply Hm.
  - intros [= <- <-]. by eapply Hm.
Qed.

Lemma mantiene_try {A} (m : M conexion A) cl h :
  mantiene m → (∀ e, mantiene (h e)) → mantiene (try_except m cl h).
Proof.
  intros Hm Hh w r w' Hw. unfold try_except.
  destruct (m w) as [[a|e] w1] eqn:E.
  - intros [= <- <-]. by eapply Hm.
  - destruct (cl e).
    + intros H. eapply Hh; [|exact H]. by eapply Hm.
    + intros [= <- <-]. by eapply Hm.
Qed.

Lemma mantiene_for_each {X} (xs : list X) (f : X → M conexion unit) :
  (∀ x, mantiene (f x)) → mantiene (for_each xs f).
Proof.
  intros Hf. induction xs as [|x xs IH]; simpl.
  - apply mantiene_ret.
  - apply mantiene_bind; [apply Hf|]. intros _. apply IH.
Qed.

Lemma mantiene_print s : mantiene (print s).
Proof. by intros w r w' H [= <- <-]. Qed.

Lemma mantiene_lanzar {A} e : mantiene (@lanzar conexion A e).
Proof. by intros w r w' H [= <- <-]. Qed.

Lemma mantiene_averia : mantiene averia.
Proof.
  intros w r w' H. unfold averia.
  destruct (fallos (motor w)) as [|[] f]; by intros [= <- <-].
Qed.

Lemma integra_vista c : integra_conexion c → integra (vista c).
Proof.
  intros [Hd Hp]. unfold vista. destruct (pendiente c) as [d|]; [by apply Hp|done].
Qed.

Lemma mantiene_paso {A} (f : bd → error_sql + bd * A) :
  conserva_bd f → mantiene (paso f).
Proof.
  intros Hf w r w' Hw. unfold paso, mbind, M_bind, leer, poner, raise_sql, lanzar.
  simpl. destruct (f (vista (motor w))) as [e|[d' a]] eqn:E.
  - by intros [= <- <-].
  - intros [= <- <-]. simpl. split; [exact (proj1 Hw)|]. intros d [= <-].
    eapply Hf; [|exact E]. by apply integra_vista.
Qed.

Lemma mantiene_preparar t : mantiene (preparar t).
Proof.
  intros w r w' Hw. unfold preparar, mbind, M_bind, leer, raise_sql, lanzar.
  simpl. destruct (existe t _); by intros [= <- <-].
Qed.

Lemma mantiene_abrir : mantiene abrir.
Proof.
  intros w r w' Hw. unfold abrir, mbind, M_bind, leer, poner. simpl.
  intros [= <- <-]. simpl. split; [exact (proj1 Hw)|]. intros d [= <-].
  by apply integra_vista.
Qed.

Lemma mantiene_execute_dml {A} t (f : bd → error_sql + bd * A) :
  conserva_bd f → mantiene (execute_dml t f).
Proof.
  intros Hf. unfold execute_dml.
  apply mantiene_bind; [apply mantiene_averia|]. intros _.
  apply mantiene_bind; [apply mantiene_preparar|]. intros _.
  apply mantiene_bind; [apply mantiene_abrir|]. intros _.
  by apply mantiene_paso.
Qed.

Lemma mantiene_executemany {P A} t (f : P → bd → error_sql + bd * A) ps :
  (∀ p, conserva_bd (f p)) → mantiene (executemany t f ps).
Proof.
  intros Hf. unfold executemany.
  apply mantiene_bind; [apply mantiene_averia|]. intros _.
  apply mantiene_bind; [apply mantiene_preparar|]. intros _.
  apply mantiene_bind; [apply mantiene_abrir|]. intros _.
  apply mantiene_for_each. intros p.
  apply mantiene_bind; [by apply mantiene_paso|]. intros _. apply mantiene_ret.
Qed.

Lemma mantiene_execute_ddl (f : bd → bd) :
  (∀ d, integra d → integra (f d)) → mantiene (execute_ddl f).
Proof.
  intros Hf. unfold execute_ddl.
  apply mantiene_bind; [apply mantiene_averia|]. intros _.
  intros w r w' [Hd Hp]. unfold mbind, M_bind, leer, poner. simpl.
  destruct (pendiente (motor w)) as [d|] eqn:E; intros [= <- <-]; simpl.
  - split; [done|]. intros d0 [= <-]. by apply Hf, Hp.
  - split; [by apply Hf|done].
Qed.

Lemma mantiene_execute_begin : mantiene execute_begin.
Proof.
  unfold execute_begin.
  apply mantiene_bind; [apply mantiene_averia|]. intros _.
  intros w r w' [Hd Hp]. unfold mbind, M_bind, leer, poner, lanzar. simpl.
  destruct (pendiente (motor w)) as [d|] eqn:E; intros [= <- <-]; simpl.
  - split; [done|]. by rewrite E.
  - split; [done|]. by intros d0 [= <-].
Qed.

Lemma mantiene_commit : mantiene commit.
Proof.
  intros w r w' Hw. unfold commit, mbind at 1, M_bind at 1, leer. simpl.
  destruct (pendiente (motor w)) as [d|] eqn:E; [|by intros [= <- <-]].
  unfold mbind at 1, M_bind at 1.
  destruct (averia w) as [[[]|e] w1] eqn:Ea.
  - unfold mbind, M_bind, leer, poner. simpl. intros [= <- <-]. simpl.
    split; [|done]. apply integra_vista. by eapply mantiene_averia.
  - intros [= <- <-]. by eapply mantiene_averia.
Qed.

Lemma mantiene_rollback : mantiene rollback.
Proof.
  intros w r w' [Hd Hp]. unfold rollback, mbind, M_bind, leer, poner. simpl.
  by intros [= <- <-].
Qed.

Lemma mantiene_execute_select {A} (q : bd → error_sql + A) :
  mantiene (execute_select q).
Proof.
  unfold execute_select.
  apply mantiene_bind; [apply mantiene_averia|]. intros _.
  intros w r w' Hw. unfold mbind, M_bind, leer, raise_sql, lanzar. simpl.
  destruct (q _); by intros [= <- <-].
Qed.

Lemma mantiene_manejador s e : mantiene (print (s +:+ str_excepcion e) ;; rollback).
Proof.
  apply mantiene_bind; [apply mantiene_print|]. intros _. apply mantiene_rollback.
Qed.

Lemma mantiene_crear_tablas : mantiene Ej3a1.crear_tablas.
Proof.
  apply mantiene_try; [|intros e; apply mantiene_manejador].
  apply mantiene_bind;
    [apply mantiene_execute_ddl, integra_create_autores|]. intros _.
  apply mantiene_bind;
    [apply mantiene_execute_ddl, integra_create_libros|]. intros _.
  apply mantiene_commit.
Qed.

Lemma mantiene_insertar_autores autores : mantiene (Ej3a1.insertar_autores autores).
Proof.
  apply mantiene_try; [|intros e; apply mantiene_manejador].
  apply mantiene_bind;
    [apply mantiene_executemany, integra_insert_autor|]. intros _.
  apply mantiene_bind; [apply mantiene_commit|]. intros _. apply mantiene_print.
Qed.

Lemma mantiene_insertar_libros libros : mantiene (Ej3a1.insertar_libros libros).
Proof.
  apply mantiene_try; [|intros e; apply mantiene_manejador].
  apply mantiene_bind;
    [apply mantiene_executemany, integra_insert_libro|]. intros _.
  apply mantiene_bind; [apply mantiene_commit|]. intros _. apply mantiene_print.
Qed.

Lemma mantiene_consultar_libros : mantiene Ej3a1.consultar_libros.
Proof.
  apply mantiene_try; [|intros e; apply mantiene_print].
  apply mantiene_bind; [apply mantiene_execute_select|]. intros libros.
  apply mantiene_bind; [apply mantiene_print|]. intros _.
  apply mantiene_for_each. intros f. apply mantiene_print.
Qed.

Lemma mantiene_buscar nombre : mantiene (Ej3a1.buscar_libros_por_autor nombre).
Proof.
  apply mantiene_try.
  - apply mantiene_bind; [apply mantiene_execute_select|]. intros libros.
    apply mantiene_ret.
  - intros e. apply mantiene_bind; [apply mantiene_print|]. intros _.
    apply mantiene_ret.
Qed.

Lemma mantiene_actualizar_1 id t a : mantiene (Ej3a1.actualizar_libro id t a).
Proof.
  apply mantiene_try; [|intros e; apply mantiene_manejador].
  destruct t as [t|], a as [a|]; simpl; [..|apply mantiene_print].
  all: apply mantiene_bind;
    [apply mantiene_execute_dml, integra_update_libros|]; intros n.
  all: apply mantiene_bind; [apply mantiene_commit|]; intros _.
  all: case_decide; apply mantiene_print.
Qed.

Lemma mantiene_eliminar_1 id : mantiene (Ej3a1.eliminar_libro id).
Proof.
  apply mantiene_try; [|intros e; apply mantiene_manejador].
  apply mantiene_bind;
    [apply mantiene_execute_dml, integra_delete_libro|]; intros n.
  apply mantiene_bind; [apply mantiene_commit|]; intros _.
  case_decide; apply mantiene_print.
Qed.

Lemma mantiene_ejemplo_1 : mantiene Ej3a1.ejemplo_transaccion.
Proof.
  apply mantiene_try.
  - apply mantiene_bind; [apply mantiene_execute_begin|]. intros _.
    apply mantiene_bind;
      [apply mantiene_execute_dml, integra_insert_autor|]. intros k.
    apply mantiene_bind;
      [apply mantiene_execute_dml, integra_insert_libro|]. intros _.
    apply mantiene_bind; [apply mantiene_commit|]. intros _.
    apply mantiene_print.
  - intros e. apply mantiene_bind; [apply mantiene_print|]. intros _.
    apply mantiene_bind; [apply mantiene_rollback|]. intros _.
    apply mantiene_print.
Qed.

Lemma mantiene_agregar titulo anio autor_id :
  mantiene (Ej3a2.agregar_libro titulo anio autor_id).
Proof.
  apply mantiene_try.
  - apply mantiene_bind;
      [apply mantiene_execute_dml, integra_insert_libro|]. intros k.
    apply mantiene_bind; [apply mantiene_commit|]. intros _. apply mantiene_ret.
  - intros e. apply mantiene_bind; [apply mantiene_print|]. intros _.
    apply mantiene_bind; [apply mantiene_rollback|]. intros _. apply mantiene_ret.
Qed.

Lemma mantiene_actualizar_2 id t a aid :
  mantiene (Ej3a2.actualizar_libro id t a aid).
Proof.
  apply mantiene_try.
  - apply mantiene_bind; [apply mantiene_execute_select|]. intros ids.
    destruct (head ids); [|apply mantiene_ret].
    destruct t as [t|], a as [a|], aid as [aid|]; simpl; [..|apply mantiene_ret].
    all: apply mantiene_bind;
      [apply mantiene_execute_dml, integra_update_libros|]; intros n.
    all: apply mantiene_bind; [apply mantiene_commit|]; intros _.
    all: apply mantiene_ret.
  - intros e. apply mantiene_bind; [apply mantiene_print|]. intros _.
    apply mantiene_bind; [apply mantiene_rollback|]. intros _. apply mantiene_ret.
Qed.

(** Every function of [ej3a1], and the two writers of [ej3a2], keep
    the primary keys: when, in the durable database and in the open
    transaction, no two rows of a table share an id and no id exceeds
    the table's sequence, the same holds after the call, however it
    ends. *)
Theorem claves_primarias_unicas :
  mantiene Ej3a1.crear_tablas
  ∧ (∀ autores, mantiene (Ej3a1.insertar_autores autores))
  ∧ (∀ libros, mantiene (Ej3a1.insertar_libros libros))
  ∧ mantiene Ej3a1.consultar_libros
  ∧ (∀ nombre, mantiene (Ej3a1.buscar_libros_por_autor nombre))
  ∧ (∀ id t a, mantiene (Ej3a1.actualizar_libro id t a))
  ∧ (∀ id, mantiene (Ej3a1.eliminar_libro id))
  ∧ mantiene Ej3a1.ejemplo_transaccion
  ∧ (∀ titulo anio autor_id, mantiene (Ej3a2.agregar_libro titulo anio autor_id))
  ∧ (∀ id t a aid, mantiene (Ej3a2.actualizar_libro id t a aid)).
Proof.
  split; [apply mantiene_crear_tablas|].
  split; [apply mantiene_insertar_autores|].
  split; [apply mantiene_insertar_libros|].
  split; [apply mantiene_consultar_libros|].
  split; [apply mantiene_buscar|].
  split; [apply mantiene_actualizar_1|].
  split; [apply mantiene_eliminar_1|].
  split; [apply mantiene_ejemplo_1|].
  split; [apply mantiene_agregar|apply mantiene_actualizar_2].
Qed.

End claves.

(** ** ej3a1.py: a session of calls on a new connection *)

Section sesiones.
Import Sqlite.





End sesiones.

(** ** ej3a4.py: inserting documents *)

Section altas_doc.
Import Mongo.

Lemma docs_con_docs c ds b : docs c (con_docs c ds b) = ds.
Proof. by destruct c. Qed.

Lemma con_docs_con_docs c ds ds' b :
  con_docs c ds (con_docs c ds' b) = con_docs c ds b.
Proof. by destruct c. Qed.

Lemma con_id_nuevo doc w :
  doc !! "_id" = None →
  con_id doc w =
    (Devuelve (<["_id" := BObjectId (contador_oid (motor w))]> doc),
     Mundo (Base (col_autores (motor w)) (col_libros (motor w))
                 (transaccion (motor w)) (contador_oid (motor w) + 1)
                 (replica_set (motor w)) (averias (motor w)))
           (salida w)).
Proof. intros H. unfold con_id. by rewrite H. Qed.

Lemma con_ids_nuevos ds w :
  Forall (λ d : documento, d !! "_id" = None) ds →
  con_ids ds w =
    (Devuelve (docs_desde (contador_oid (motor w)) ds),
     Mundo (Base (col_autores (motor w)) (col_libros (motor w))
                 (transaccion (motor w))
                 (contador_oid (motor w) + N.of_nat (length ds))
                 (replica_set (motor w)) (averias (motor w)))
           (salida w)).
Proof.
  revert w. induction ds as [|d ds IH]; intros w Hds.
  - simpl. rewrite N.add_0_r. by destruct w as [[]].
  - apply Forall_cons in Hds as [Hd Hds]. simpl con_ids.
    erewrite bind_devuelve by (by apply con_id_nuevo).
    erewrite bind_devuelve by (by apply IH).
    simpl. unfold mret, M_ret. do 3 f_equal. lia.
Qed.

Lemma docs_desde_lookup k ds (i : nat) :
  docs_desde k ds !! i =
    (λ d : documento, <["_id" := BObjectId (k + N.of_nat i)]> d) <$> ds !! i.
Proof.
  revert k i. induction ds as [|d ds IH]; intros k i; [done|].
  destruct i as [|i]; simpl.
  - by rewrite N.add_0_r.
  - rewrite IH. destruct (ds !! i); simpl; [|done]. do 3 f_equal. lia.
Qed.

Lemma length_docs_desde k ds : length (docs_desde k ds) = length ds.
Proof.
  revert k. induction ds as [|d ds IH]; intros k; simpl; [done|]. by rewrite IH.
Qed.

Lemma docs_desde_id k ds d :
  d ∈ docs_desde k ds →
  ∃ i : nat, d !! "_id" = Some (BObjectId (k + N.of_nat i)) ∧ (i < length ds)%nat.
Proof.
  intros [i Hi]%list_elem_of_lookup. rewrite docs_desde_lookup in Hi.
  destruct (ds !! i) as [d0|] eqn:E; [|done]. injection Hi as <-.
  exists i. split; [by rewrite lookup_insert_eq|].
  by apply lookup_lt_Some in E.
Qed.

(** Documents with fresh identifiers are all accepted. *)
Lemma insertar_en_orden_frescos c k ds w :
  (∀ d o, d ∈ docs c (motor w) → d !! "_id" = Some (BObjectId o) → (o < k)%N) →
  insertar_en_orden c (docs_desde k ds) w =
    (Devuelve tt,
     Mundo (con_docs c (docs c (motor w) ++ docs_desde k ds) (motor w)) (salida w)).
Proof.
  revert k w. induction ds as [|d ds IH]; intros k w Hf.
  - simpl. rewrite app_nil_r. unfold mret, M_ret. do 2 f_equal.
    destruct w as [[] ?], c; reflexivity.
  - simpl. unfold mbind at 1, M_bind at 1, leer. unfold agregar.
    rewrite decide_False.
    2: { intros (d0 & Hin & Hid)%Exists_exists.
         rewrite lookup_insert_eq in Hid.
         specialize (Hf d0 k Hin Hid). lia. }
    erewrite bind_devuelve by reflexivity.
    rewrite IH.
    + simpl. rewrite docs_con_docs, con_docs_con_docs, <-app_assoc. done.
    + simpl. rewrite docs_con_docs.
      intros d0 o [Hin|Hin]%elem_of_app Hid.
      * specialize (Hf d0 o Hin Hid). lia.
      * apply list_elem_of_singleton in Hin as ->.
        rewrite lookup_insert_eq in Hid. injection Hid as <-. lia.
Qed.

Lemma insert_many_sano c ds w :
  averias (motor w) = [] →
  ds ≠ [] →
  Forall (λ d : documento, d !! "_id" = None) ds →
  fresco c (motor w) →
  insert_many c ds w =
    (Devuelve ((λ d : documento, default BNull (d !! "_id"))
                 <$> docs_desde (contador_oid (motor w)) ds),
     Mundo (con_docs c (docs c (motor w) ++ docs_desde (contador_oid (motor w)) ds)
              (Base (col_autores (motor w)) (col_libros (motor w))
                    (transaccion (motor w))
                    (contador_oid (motor w) + N.of_nat (length ds))
                    (replica_set (motor w)) []))
           (salida w)).
Proof.
  intros Hs Hne Hds Hf. unfold insert_many.
  destruct ds as [|d0 ds0]; [done|].
  set (ds := d0 :: ds0) in *. clearbody ds.
  erewrite bind_devuelve by (by apply con_ids_nuevos).
  erewrite bind_devuelve by (by apply averia_sana).
  erewrite bind_devuelve.
  2: { apply insertar_en_orden_frescos. simpl.
       intros d o Hin. apply Hf. by destruct c. }
  simpl. rewrite Hs. unfold mret, M_ret. by do 3 f_equal.
Qed.

Lemma fresco_tras_altas c b k ds :
  fresco c b → k = contador_oid b →
  fresco c (con_docs c (docs c b ++ docs_desde k ds)
              (Base (col_autores b) (col_libros b) (transaccion b)
                    (k + N.of_nat (length ds)) (replica_set b) [])).
Proof.
  intros Hf -> d o. rewrite docs_con_docs.
  intros [Hin|Hin]%elem_of_app Hid.
  - specialize (Hf d o Hin Hid). destruct c; simpl; lia.
  - apply docs_desde_id in Hin as (i & Hi & Hlt).
    rewrite Hi in Hid. injection Hid as <-. destruct c; simpl; lia.
Qed.

(** With an empty list, [insertar_autores] and [insertar_libros] of
    [ej3a4] do not report zero insertions: the driver rejects the empty
    list, the function prints that error and returns the empty list.
    The engine is not called. *)
Theorem insertar_lista_vacia_doc (w : mundo base) :
  Ej3a4.insertar_autores [] w =
    (Devuelve [],
     Mundo (motor w)
           (salida w ++ ["Error al insertar autores: documents must be a non-empty list"]))
  ∧ Ej3a4.insertar_libros [] w =
      (Devuelve [],
       Mundo (motor w)
             (salida w ++ ["Error al insertar libros: documents must be a non-empty list"])).
Proof. split; reflexivity. Qed.

(** On a healthy engine whose stored authors have identifiers older
    than the next one the driver gives, [insertar_autores] of a list
    that is not empty appends one document per name, in order, made of
    a new [_id] and the name, and returns the identifiers as text, in
    the same order; the books are untouched, and the identifiers stay
    fresh. *)
Theorem insertar_autores_doc_agrega (w : mundo base) (autores : list string) :
  averias (motor w) = [] →
  autores ≠ [] →
  fresco Autores (motor w) →
  ∃ ids nuevos w',
    Ej3a4.insertar_autores autores w = (Devuelve ids, w')
    ∧ col_autores (motor w') = col_autores (motor w) ++ nuevos
    ∧ col_libros (motor w') = col_libros (motor w)
    ∧ averias (motor w') = []
    ∧ salida w' = salida w
        ++ ["Se insertaron " +:+ pretty (length autores) +:+ " autores correctamente."]
    ∧ length ids = length autores
    ∧ length nuevos = length autores
    ∧ (∀ (i : nat) n, autores !! i = Some n →
         nuevos !! i
           = Some {[ "_id" := BObjectId (contador_oid (motor w) + N.of_nat i);
                     "nombre" := BString n ]}
         ∧ ids !! i = Some (str_oid (contador_oid (motor w) + N.of_nat i)))
    ∧ fresco Autores (motor w').
Proof.
  intros Hs Hne Hf.
  set (k := contador_oid (motor w)).
  set (ds := Ej3a4.doc_autor <$> autores).
  assert (Forall (λ d : documento, d !! "_id" = None) ds) as Hds.
  { apply Forall_fmap, Forall_forall. intros n _. simpl.
    unfold Ej3a4.doc_autor. by rewrite lookup_singleton_ne. }
  assert (ds ≠ []) as Hne' by (unfold ds; by destruct autores).
  pose proof (insert_many_sano Autores ds w Hs Hne' Hds Hf) as Hi.
  eexists _, (docs_desde k ds), _. split.
  { unfold Ej3a4.insertar_autores. apply try_devuelve.
    fold ds. erewrite bind_devuelve by exact Hi.
    erewrite bind_devuelve by reflexivity. reflexivity. }
  simpl. split; [done|]. split; [done|]. split; [done|].
  rewrite !length_fmap, !length_docs_desde. unfold ds. rewrite !length_fmap.
  split; [done|]. split; [done|]. split; [done|]. split.
  - intros i n Hn. fold ds. split.
    + rewrite docs_desde_lookup. unfold ds. by rewrite list_lookup_fmap, Hn.
    + rewrite !list_lookup_fmap, docs_desde_lookup. unfold ds.
      rewrite list_lookup_fmap, Hn. simpl. by rewrite lookup_insert_eq.
  - fold ds. replace (length autores) with (length ds)
      by (unfold ds; by rewrite length_fmap).
    by apply (fresco_tras_altas Autores (motor w) k ds).
Qed.


End altas_doc.

(** ** ej3a4.py: the transaction when it commits, and when it cannot *)

Section transaccion_doc.
Import Mongo.

(** A round trip that the fault plan lets through. *)
Lemma averia_pasa w :
  head (averias (motor w)) ≠ Some true →
  averia w =
    (Devuelve tt,
     Mundo (Base (col_autores (motor w)) (col_libros (motor w))
                 (transaccion (motor w)) (contador_oid (motor w))
                 (replica_set (motor w)) (tail (averias (motor w))))
           (salida w)).
Proof.
  destruct w as [[au li tr co rs av] s]. simpl. unfold averia. simpl.
  destruct av as [|[] av]; simpl; done.
Qed.

Lemma insert_one_en_sesion_pasa c doc w a l :
  head (averias (motor w)) ≠ Some true →
  replica_set (motor w) = true →
  transaccion (motor w) = Some (a, l) →
  doc !! "_id" = None →
  (∀ d, d ∈ match c with Autores => a | Libros => l end →
        d !! "_id" ≠ Some (BObjectId (contador_oid (motor w)))) →
  insert_one_en_sesion c doc w =
    (Devuelve (BObjectId (contador_oid (motor w))),
     Mundo (Base (col_autores (motor w)) (col_libros (motor w))
                 (Some (match c with
                        | Autores =>
                            (a ++ [<["_id" := BObjectId (contador_oid (motor w))]> doc], l)
                        | Libros =>
                            (a, l ++ [<["_id" := BObjectId (contador_oid (motor w))]> doc])
                        end))
                 (contador_oid (motor w) + 1) true (tail (averias (motor w))))
           (salida w)).
Proof.
  destruct w as [[au li tr co rs av] s]. simpl. intros Hav -> -> Hdoc Hf.
  unfold insert_one_en_sesion.
  erewrite bind_devuelve by (by apply con_id_nuevo).
  erewrite bind_devuelve by (by apply averia_pasa).
  unfold mbind at 1, M_bind at 1, leer. simpl.
  unfold agregar. rewrite decide_False.
  2: { intros (d0 & Hin & Hid)%Exists_exists.
       rewrite lookup_insert_eq in Hid. by apply (Hf d0). }
  erewrite bind_devuelve by reflexivity.
  unfold mret, M_ret. rewrite lookup_insert_eq. simpl. by destruct c.
Qed.




Lemma ejemplo_transaccion_4_cuerpo w :
  replica_set (motor w) = true →
  head (averias (motor w)) ≠ Some true →
  head (tail (averias (motor w))) ≠ Some true →
  (∀ d, d ∈ col_autores (motor w) →
        d !! "_id" ≠ Some (BObjectId (contador_oid (motor w)))) →
  (∀ d, d ∈ col_libros (motor w) →
        d !! "_id" ≠ Some (BObjectId (contador_oid (motor w) + 1))) →
  (nuevo_autor_id ← insert_one_en_sesion Autores {[ "nombre" := BString "Octavio Paz" ]};
   insert_one_en_sesion Libros
     {[ "titulo" := BString "El laberinto de la soledad";
        "anio" := BInt 1950;
        "autor_id" := BString (str_bson nuevo_autor_id) ]} ;;
   print "Transacción completada: Se agregó 'Octavio Paz' y su libro." ;;
   mret true)
    (Mundo (Base (col_autores (motor w)) (col_libros (motor w))
              (Some (col_autores (motor w), col_libros (motor w)))
              (contador_oid (motor w)) (replica_set (motor w))
              (averias (motor w))) (salida w))
  = (Devuelve true,
     Mundo (Base (col_autores (motor w)) (col_libros (motor w))
              (Some (col_autores (motor w) ++ [autor_paz (contador_oid (motor w))],
                     col_libros (motor w) ++ [libro_paz (contador_oid (motor w))]))
              (contador_oid (motor w) + 1 + 1) true
              (tail (tail (averias (motor w)))))
           (salida w ++ ["Transacción completada: Se agregó 'Octavio Paz' y su libro."])).
Proof.
  destruct w as [[au li tr co rs av] s]. simpl. intros -> Hav1 Hav2 Hfa Hfl.
  erewrite bind_devuelve.
  2: { apply (insert_one_en_sesion_pasa Autores _ _ au li); done. }
  simpl.
  erewrite bind_devuelve.
  2: { eapply insert_one_en_sesion_pasa;
         [done|done|reflexivity|done|simpl; done]. }
  simpl. reflexivity.
Qed.

(** On a healthy replica set whose next two identifiers are new to
    the collections, [ejemplo_transaccion] of [ej3a4] returns [True] and
    commits one author and one book, the book holding the author's
    identifier as text. *)
Theorem ejemplo_transaccion_doc_confirma (w : mundo base) :
  replica_set (motor w) = true →
  averias (motor w) = [] →
  (∀ d, d ∈ col_autores (motor w) →
        d !! "_id" ≠ Some (BObjectId (contador_oid (motor w)))) →
  (∀ d, d ∈ col_libros (motor w) →
        d !! "_id" ≠ Some (BObjectId (contador_oid (motor w) + 1))) →
  Ej3a4.ejemplo_transaccion w =
    (Devuelve true,
     Mundo (Base (col_autores (motor w) ++ [autor_paz (contador_oid (motor w))])
                 (col_libros (motor w) ++ [libro_paz (contador_oid (motor w))])
                 None (contador_oid (motor w) + 1 + 1) true [])
           (salida w ++ ["Transacción completada: Se agregó 'Octavio Paz' y su libro."])).
Proof.
  intros Hr Hav Hfa Hfl.
  unfold Ej3a4.ejemplo_transaccion. apply try_devuelve.
  unfold Ej3a4.transaccion_cuerpo, with_session. apply try_devuelve.
  erewrite bind_devuelve.
  2: { unfold with_transaction.
       erewrite bind_devuelve by reflexivity.
       apply try_devuelve.
       erewrite bind_devuelve.
       2: { apply ejemplo_transaccion_4_cuerpo; try done; by rewrite Hav. }
       rewrite Hav. reflexivity. }
  reflexivity.
Qed.

(** When the two insertions pass and the commit fails, the line that
    announces the completed transaction has been printed already: the
    console shows it, followed by the error, while the function returns
    [False] and the collections are as they were. *)
Theorem ejemplo_transaccion_doc_commit_falla (w : mundo base) (resto : list bool) :
  replica_set (motor w) = true →
  averias (motor w) = false :: false :: true :: resto →
  (∀ d, d ∈ col_autores (motor w) →
        d !! "_id" ≠ Some (BObjectId (contador_oid (motor w)))) →
  (∀ d, d ∈ col_libros (motor w) →
        d !! "_id" ≠ Some (BObjectId (contador_oid (motor w) + 1))) →
  Ej3a4.ejemplo_transaccion w =
    (Devuelve false,
     Mundo (Base (col_autores (motor w)) (col_libros (motor w))
                 None (contador_oid (motor w) + 1 + 1) true resto)
           (salida w ++ ["Transacción completada: Se agregó 'Octavio Paz' y su libro.";
                         "Error en la transacción: connection closed"])).
Proof.
  intros Hr Hav Hfa Hfl.
  unfold Ej3a4.ejemplo_transaccion.
  rewrite (try_lanza _ _ _ _ (PyMongoError "connection closed")
             (Mundo (Base (col_autores (motor w)) (col_libros (motor w))
                       None (contador_oid (motor w) + 1 + 1) true resto)
                    (salida w ++ ["Transacción completada: Se agregó 'Octavio Paz' y su libro."])));
    [unfold mbind, M_bind, print, mret, M_ret; simpl; by rewrite <-app_assoc| |done].
  unfold Ej3a4.transaccion_cuerpo, with_session.
  rewrite (try_lanza _ _ _ _ (PyMongoError "connection closed")
             (Mundo (Base (col_autores (motor w)) (col_libros (motor w))
                       None (contador_oid (motor w) + 1 + 1) true resto)
                    (salida w ++ ["Transacción completada: Se agregó 'Octavio Paz' y su libro."])));
    [reflexivity| |reflexivity].
  apply bind_lanza. unfold with_transaction.
  erewrite bind_devuelve by reflexivity.
  rewrite (try_lanza _ _ _ _ (PyMongoError "connection closed")
             (Mundo (Base (col_autores (motor w)) (col_libros (motor w))
                       (Some (col_autores (motor w) ++ [autor_paz (contador_oid (motor w))],
                              col_libros (motor w) ++ [libro_paz (contador_oid (motor w))]))
                       (contador_oid (motor w) + 1 + 1) true resto)
                    (salida w ++ ["Transacción completada: Se agregó 'Octavio Paz' y su libro."])));
    [reflexivity| |reflexivity].
  erewrite bind_devuelve.
  2: { apply ejemplo_transaccion_4_cuerpo; try done; by rewrite Hav. }
  rewrite Hav. reflexivity.
Qed.

End transaccion_doc.

(** ** ej3a4.py: what the search returns, and what the readers leave *)

Section busqueda_doc.
Import Mongo.

Lemma proyeccion_lookup (d : documento) (campos : list string) k :
  k ∈ campos → (filter (λ kv : string * bson, kv.1 ∈ campos) d) !! k = d !! k.
Proof.
  intros Hk. destruct (d !! k) as [v|] eqn:E.
  - by apply map_lookup_filter_Some.
  - apply map_lookup_filter_None. by left.
Qed.

Lemma proyeccion_titulo_anio (d : documento) :
  (filter (λ kv : string * bson, kv.1 ∈ ["titulo"; "anio"]) d) !! "titulo"
    = d !! "titulo"
  ∧ (filter (λ kv : string * bson, kv.1 ∈ ["titulo"; "anio"]) d) !! "anio"
    = d !! "anio".
Proof. split; apply proyeccion_lookup; [left|right; left]. Qed.

Lemma tuplas_incompletas (ds : list documento) w :
  (∃ d, d ∈ ds ∧ (d !! "titulo" = None ∨ d !! "anio" = None)) →
  ∃ campo,
    (campo = "titulo" ∨ campo = "anio")
    ∧ Ej3a4.tuplas ds w = (Lanza (KeyError ("'" +:+ campo +:+ "'")), w).
Proof.
  induction ds as [|d ds IH]; intros (d0 & Hin & Hd0).
  { by apply elem_of_nil in Hin. }
  simpl. unfold getitem.
  destruct (d !! "titulo") as [t|] eqn:Et.
  2: { exists "titulo". split; [by left|]. reflexivity. }
  destruct (d !! "anio") as [a|] eqn:Ea.
  2: { exists "anio". split; [by right|]. reflexivity. }
  apply elem_of_cons in Hin as [->|Hin].
  { destruct Hd0; congruence. }
  destruct IH as (campo & Hc & Hr); [by exists d0|].
  exists campo. split; [done|].
  do 2 (erewrite bind_devuelve by reflexivity).
  by erewrite bind_lanza.
Qed.

(** The search of [ej3a4] up to the books of the author it found. *)
Lemma buscar_4_hasta_libros w n k a v :
  averias (motor w) = [] →
  col_autores (motor w) !! k = Some a →
  a !! "nombre" = Some (BString n) →
  (∀ j a', (j < k)%nat → col_autores (motor w) !! j = Some a' →
           a' !! "nombre" ≠ Some (BString n)) →
  a !! "_id" = Some v →
  Ej3a4.buscar_libros_por_autor n w =
    try_except
      (resultado ← Ej3a4.tuplas
         ((λ d : documento, filter (λ kv, kv.1 ∈ ["titulo"; "anio"]) d)
            <$> filter (λ l : documento, l !! "autor_id" = Some (BString (str_bson v)))
                  (col_libros (motor w)));
       mret resultado)
      es_Exception
      (λ e, print ("Error al buscar libros por autor: " +:+ str_excepcion e) ;;
            mret []) w.
Proof.
  intros Hs Hk Hn Hprimero Hid.
  assert (head (filter (coincide {[ "nombre" := BString n ]})
                       (col_autores (motor w))) = Some a) as Hhead.
  { apply (head_filter_primero _ _ k); [done|by apply coincide_singleton|].
    intros j y Hj Hy Hc%coincide_singleton. by apply (Hprimero j y). }
  assert (filter (coincide {[ "autor_id" := BString (str_bson v) ]})
                 (col_libros (motor w))
          = filter (λ l : documento, l !! "autor_id" = Some (BString (str_bson v)))
                   (col_libros (motor w))) as Hf.
  { apply list_filter_iff. intros l. apply coincide_singleton. }
  unfold Ej3a4.buscar_libros_por_autor, try_except.
  rewrite (bind_devuelve _ _ _ _ _ (find_one_sano _ _ w Hs)).
  simpl. rewrite Hhead.
  case_decide as Hvacio; [by rewrite Hvacio, lookup_empty in Hid|].
  unfold getitem at 1. rewrite Hid.
  erewrite bind_devuelve by reflexivity.
  rewrite (bind_devuelve _ _ _ _ _ (find_sano _ _ _ w Hs)).
  simpl. by rewrite Hf.
Qed.

(** On a healthy engine, [buscar_libros_por_autor] of [ej3a4] takes
    the first stored author with the given name, and returns the title
    and the year of the books whose [autor_id] is the text of that
    author's [_id], in the order they are stored, provided each of those
    books has both fields.  Books of a later author of the same name are
    not searched for.  The engine is left as it was. *)
Theorem buscar_doc_exacto
    (w : mundo base) (n : string) (k : nat) (a : documento) (v : bson) :
  averias (motor w) = [] →
  col_autores (motor w) !! k = Some a →
  a !! "nombre" = Some (BString n) →
  (∀ j a', (j < k)%nat → col_autores (motor w) !! j = Some a' →
           a' !! "nombre" ≠ Some (BString n)) →
  a !! "_id" = Some v →
  (∀ l, l ∈ col_libros (motor w) →
        l !! "autor_id" = Some (BString (str_bson v)) →
        is_Some (l !! "titulo") ∧ is_Some (l !! "anio")) →
  Ej3a4.buscar_libros_por_autor n w =
    (Devuelve ((λ l : documento,
                  (default BNull (l !! "titulo"), default BNull (l !! "anio")))
                 <$> filter (λ l : documento,
                               l !! "autor_id" = Some (BString (str_bson v)))
                       (col_libros (motor w))),
     w).
Proof.
  intros Hs Hk Hn Hprimero Hid Hcampos.
  rewrite (buscar_4_hasta_libros w n k a v) by done.
  apply try_devuelve.
  erewrite bind_devuelve; [reflexivity|].
  rewrite tuplas_completas.
  - rewrite <-list_fmap_compose. do 2 f_equal.
    apply list_fmap_ext. intros i l _. simpl.
    destruct (proyeccion_titulo_anio l) as [-> ->]. done.
  - intros d' (l & -> & [Ha Hin]%list_elem_of_filter)%list_elem_of_fmap.
    destruct (proyeccion_titulo_anio l) as [-> ->]. by apply Hcampos.
Qed.

(** When one of the author's books lacks the title or the year, the
    subscript raises [KeyError] and the search returns the empty list,
    with the error printed: the books that have both fields are not
    returned either. *)
Theorem buscar_doc_campo_ausente
    (w : mundo base) (n : string) (k : nat) (a : documento) (v : bson)
    (l : documento) :
  averias (motor w) = [] →
  col_autores (motor w) !! k = Some a →
  a !! "nombre" = Some (BString n) →
  (∀ j a', (j < k)%nat → col_autores (motor w) !! j = Some a' →
           a' !! "nombre" ≠ Some (BString n)) →
  a !! "_id" = Some v →
  l ∈ col_libros (motor w) →
  l !! "autor_id" = Some (BString (str_bson v)) →
  l !! "titulo" = None ∨ l !! "anio" = None →
  ∃ campo,
    (campo = "titulo" ∨ campo = "anio")
    ∧ Ej3a4.buscar_libros_por_autor n w =
        (Devuelve [],
         Mundo (motor w)
               (salida w ++ ["Error al buscar libros por autor: '" +:+ campo +:+ "'"])).
Proof.
  intros Hs Hk Hn Hprimero Hid Hin Ha Hfalta.
  rewrite (buscar_4_hasta_libros w n k a v) by done.
  edestruct (tuplas_incompletas
               ((λ d : documento, filter (λ kv, kv.1 ∈ ["titulo"; "anio"]) d)
                  <$> filter (λ l : documento,
                                l !! "autor_id" = Some (BString (str_bson v)))
                        (col_libros (motor w))) w)
    as (campo & Hc & Hr).
  { eexists. split.
    - apply list_elem_of_fmap. exists l. split; [reflexivity|].
      by apply list_elem_of_filter.
    - destruct (proyeccion_titulo_anio l) as [-> ->]. done. }
  exists campo. split; [done|].
  rewrite (try_lanza _ _ _ _ (KeyError ("'" +:+ campo +:+ "'")) w);
    [reflexivity| |reflexivity].
  by erewrite bind_lanza.
Qed.

Lemma conserva_try {A} (m : M base A) cl h :
  conserva m → (∀ e, conserva (h e)) → conserva (try_except m cl h).
Proof.
  intros Hm Hh w r w'. unfold try_except.
  destruct (m w) as [[a|e] w1] eqn:E.
  - intros [= <- <-]. by eapply Hm.
  - destruct (cl e).
    + intros H. eapply mismas_trans; [by eapply Hm|by eapply Hh].
    + intros [= <- <-]. by eapply Hm.
Qed.

Lemma conserva_getitem d campo : conserva (getitem d campo).
Proof. intros w r w'. unfold getitem. destruct (d !! campo); by intros [= <- <-]. Qed.

Lemma conserva_for_each {X} (xs : list X) (f : X → M base unit) :
  (∀ x, conserva (f x)) → conserva (for_each xs f).
Proof.
  intros Hf. induction xs as [|x xs IH]; simpl.
  - apply conserva_ret.
  - apply conserva_bind; [apply Hf|]. intros _. apply IH.
Qed.

Lemma conserva_tuplas ds : conserva (Ej3a4.tuplas ds).
Proof.
  induction ds as [|d ds IH]; simpl; [apply conserva_ret|].
  apply conserva_bind; [apply conserva_getitem|]. intros t.
  apply conserva_bind; [apply conserva_getitem|]. intros a.
  apply conserva_bind; [apply IH|]. intros r. apply conserva_ret.
Qed.

Lemma conserva_leer {A} (f : base → M base A) :
  (∀ b, conserva (f b)) → conserva (leer ≫= f).
Proof. intros Hf w r w'. unfold mbind, M_bind, leer. apply Hf. Qed.

Lemma conserva_consultar : conserva Ej3a4.consultar_libros.
Proof.
  apply conserva_try; [|intros e; apply conserva_print].
  apply conserva_bind.
  { unfold aggregate_libros. apply conserva_bind; [apply conserva_averia|].
    intros _. apply conserva_leer. intros b. apply conserva_ret. }
  intros ls. apply conserva_bind; [apply conserva_print|]. intros _.
  apply conserva_for_each. intros l.
  apply conserva_bind; [apply conserva_getitem|]. intros t.
  apply conserva_bind; [apply conserva_getitem|]. intros a.
  apply conserva_bind; [apply conserva_getitem|]. intros n.
  apply conserva_print.
Qed.

Lemma conserva_buscar n : conserva (Ej3a4.buscar_libros_por_autor n).
Proof.
  apply conserva_try.
  2: { intros e. apply conserva_bind; [apply conserva_print|]. intros _.
       apply conserva_ret. }
  apply conserva_bind.
  { unfold find_one. apply conserva_bind; [apply conserva_averia|].
    intros _. apply conserva_leer. intros b. apply conserva_ret. }
  intros [a|].
  2: { apply conserva_bind; [apply conserva_print|]. intros _. apply conserva_ret. }
  case_decide.
  { apply conserva_bind; [apply conserva_print|]. intros _. apply conserva_ret. }
  apply conserva_bind; [apply conserva_getitem|]. intros id.
  apply conserva_bind.
  { unfold find. apply conserva_bind; [apply conserva_averia|].
    intros _. apply conserva_leer. intros b. apply conserva_ret. }
  intros ls. apply conserva_bind; [apply conserva_tuplas|]. intros r.
  apply conserva_ret.
Qed.

(** A handler that catches every exception and returns makes the
    function return. *)
Lemma try_total {B A} (m : M B A) (h : excepcion → M B A) w :
  (∀ e w1, ∃ a w', h e w1 = (Devuelve a, w')) →
  ∃ a w', try_except m es_Exception h w = (Devuelve a, w').
Proof.
  intros Hh. unfold try_except.
  destruct (m w) as [[a|e] w1]; [eauto|]. simpl. apply Hh.
Qed.

(** The two readers of [ej3a4] return normally whatever the engine
    does and whatever documents are stored, those that lack a field
    too, and leave the two collections as they were. *)
Theorem lecturas_doc_no_escriben :
  (∀ w, ∃ w',
     Ej3a4.consultar_libros w = (Devuelve tt, w')
     ∧ col_autores (motor w') = col_autores (motor w)
     ∧ col_libros (motor w') = col_libros (motor w))
  ∧ (∀ n w, ∃ res w',
       Ej3a4.buscar_libros_por_autor n w = (Devuelve res, w')
       ∧ col_autores (motor w') = col_autores (motor w)
       ∧ col_libros (motor w') = col_libros (motor w)).
Proof.
  split.
  - intros w.
    assert (∃ a w', Ej3a4.consultar_libros w = (Devuelve a, w'))
      as ([] & w' & Hr).
    { unfold Ej3a4.consultar_libros. apply try_total.
      intros e w1. eexists _, _. reflexivity. }
    exists w'. split; [exact Hr|]. by apply (conserva_consultar w _ w' Hr).
  - intros n w.
    assert (∃ a w', Ej3a4.buscar_libros_por_autor n w = (Devuelve a, w'))
      as (res & w' & Hr).
    { unfold Ej3a4.buscar_libros_por_autor. apply try_total.
      intros e w1. eexists _, _. reflexivity. }
    exists res, w'. split; [exact Hr|]. by apply (conserva_buscar n w _ w' Hr).
Qed.

End busqueda_doc.

(** ** ej3a1.py: what the update reports, and ids after a delete *)

Section informes.
Import Sqlite.





End informes.

(** ** ej3a2.py: the script fails *)

Section script_fallido.
Import Sqlite Ej3a2.

Lemma for_each_script_falla script d e sql s :
  correr script d = inl e →
  ∃ d',
    for_each script (λ sentencia,
        x ← leer;
        match sentencia (default bd_vacia (archivo_bd x)) with
        | inl e => lanzar (SqliteError e.1 e.2)
        | inr d0 => poner (Sistema (Some d0) (archivo_sql x) (averias x))
        end) (Mundo (Sistema (Some d) sql []) s)
    = (Lanza (SqliteError e.1 e.2), Mundo (Sistema (Some d') sql []) s).
Proof.
  revert d. induction script as [|st script IH]; intros d; simpl; [done|].
  destruct (st d) as [e0|d1] eqn:E.
  - intros [= ->]. exists d.
    erewrite bind_lanza; [reflexivity|].
    unfold mbind, M_bind, leer. simpl. by rewrite E.
  - intros Hc. destruct (IH d1 Hc) as [d' Hd']. exists d'.
    erewrite bind_devuelve; [exact Hd'|].
    unfold mbind, M_bind, leer. simpl. by rewrite E.
Qed.

(** When a statement of the script fails, [crear_bd_desde_sql] does
    not return a connection: it prints the error and raises it again, so
    that the caller gets the [sqlite3.Error]. *)
Theorem crear_bd_desde_sql_script_falla
    (anterior : option bd) (script : list (bd → error_sql + bd))
    (cl : clase_sqlite) (m : string) (s : list string) :
  correr script bd_vacia = inl (cl, m) →
  ∃ w',
    crear_bd_desde_sql (Mundo (Sistema anterior (Some script) []) s)
      = (Lanza (SqliteError cl m), w')
    ∧ salida w' = s ++ ["Error al crear la base de datos: " +:+ m].
Proof.
  intros Hc. rewrite crear_bd_desde_sql_descarta.
  destruct (for_each_script_falla script bd_vacia (cl, m) (Some script) s Hc)
    as [d' Hd'].
  exists (Mundo (Sistema (Some d') (Some script) [])
            (s ++ ["Error al crear la base de datos: " +:+ m])).
  split; [|reflexivity].
  unfold crear_bd_desde_sql.
  rewrite (try_lanza _ _ _ _ (SqliteError cl m)
             (Mundo (Sistema (Some d') (Some script) []) s));
    [reflexivity| |reflexivity].
  do 4 (erewrite bind_devuelve by reflexivity; simpl).
  apply bind_lanza. unfold executescript.
  erewrite bind_devuelve by reflexivity. exact Hd'.
Qed.

End script_fallido.

(** ** The properties at work on the sample states *)

Section muestras.
Import Muestra.

(** The scenario of the specification: the listing of the sample
    library, by title. *)
Example consultar_libros_muestra :
  Ej3a1.consultar_libros mundo_sql =
    (Devuelve tt,
     Mundo (motor mundo_sql)
           [Ej3a1.cabecera;
            "- Cien años de soledad (1967) - Gabriel García Márquez";
            "- Paula (1994) - Isabel Allende"]).
Proof. vm_compute. reflexivity. Qed.

(** When nothing fails the transaction commits both rows. *)
Example ejemplo_transaccion_completa :
  Ej3a1.ejemplo_transaccion mundo_sql =
    (Devuelve tt,
     Mundo (Sqlite.Conexion
              (Sqlite.Bd
                 (Some (Sqlite.Tabla
                          [Sqlite.Autor 1 "Gabriel García Márquez";
                           Sqlite.Autor 2 "Isabel Allende";
                           Sqlite.Autor 3 "Jorge Luis Borges";
                           Sqlite.Autor 4 "Mario Vargas Llosa"] 4))
                 (Some (Sqlite.Tabla
                          [Sqlite.Libro 1 "Paula" (Some 1994) (Some 2);
                           Sqlite.Libro 2 "Cien años de soledad" (Some 1967) (Some 1);
                           Sqlite.Libro 3 "La ciudad y los perros" (Some 1963) (Some 4)]
                          3)))
              None [])
           ["Transacción completada: Se agregó 'Mario Vargas Llosa' y su libro."]).
Proof. vm_compute. reflexivity. Qed.

Example ejemplo_transaccion_doc_completa :
  (Ej3a4.ejemplo_transaccion mundo_doc).1 = Devuelve true
  ∧ length (Mongo.col_autores (motor (Ej3a4.ejemplo_transaccion mundo_doc).2))
    = 1%nat
  ∧ length (Mongo.col_libros (motor (Ej3a4.ejemplo_transaccion mundo_doc).2))
    = 1%nat
  ∧ Mongo.transaccion (motor (Ej3a4.ejemplo_transaccion mundo_doc).2) = None.
Proof. repeat split; vm_compute; reflexivity. Qed.

(** C1, the claim as first stated, fails: with the table of books
    missing, the scope inserts the author and raises on the book; the
    function returns normally, the exception does not propagate.  On
    the document engine, with the second round trip failing, the
    function returns [False]. *)
Lemma C1_counterexample :
  Ej3a1.transaccion_cuerpo mundo_sin_libros =
    (Lanza (SqliteError OperationalError "no such table: libros"),
     Mundo (Sqlite.Conexion
              (Sqlite.disco (motor mundo_sin_libros))
              (Some (Sqlite.Bd
                 (Some (Sqlite.Tabla [Sqlite.Autor 1 "Isabel Allende";
                                      Sqlite.Autor 2 "Mario Vargas Llosa"] 2))
                 None))
              [])
           [])
  ∧ Ej3a1.ejemplo_transaccion mundo_sin_libros =
      (Devuelve tt,
       Mundo (motor mundo_sin_libros)
             ["Error en la transacción: no such table: libros";
              "Transacción revertida."])
  ∧ (Ej3a4.transaccion_cuerpo mundo_doc_averiado).1 =
      Lanza (PyMongoError "connection closed")
  ∧ (Ej3a4.ejemplo_transaccion mundo_doc_averiado).1 = Devuelve false.
Proof. repeat split; vm_compute; reflexivity. Qed.

Lemma C1_witness :
  Ej3a1.ejemplo_transaccion mundo_sin_libros =
    (Devuelve tt,
     Mundo (Sqlite.Conexion (Sqlite.disco (motor mundo_sin_libros)) None [])
           (salida mundo_sin_libros
            ++ ["Error en la transacción: "
                +:+ str_excepcion (SqliteError OperationalError "no such table: libros");
                "Transacción revertida."]))
  ∧ ∃ w2, Ej3a4.ejemplo_transaccion mundo_doc_averiado = (Devuelve false, w2)
      ∧ Mongo.col_autores (motor w2) = Mongo.col_autores (motor mundo_doc_averiado)
      ∧ Mongo.col_libros (motor w2) = Mongo.col_libros (motor mundo_doc_averiado)
      ∧ Mongo.transaccion (motor w2) = None.
Proof.
  split.
  - apply (proj1 C1_transaccion_revertida_sin_propagar mundo_sin_libros
             (SqliteError OperationalError "no such table: libros")
             (Ej3a1.transaccion_cuerpo mundo_sin_libros).2).
    vm_compute. reflexivity.
  - apply (proj2 C1_transaccion_revertida_sin_propagar mundo_doc_averiado
             (PyMongoError "connection closed")
             (Ej3a4.transaccion_cuerpo mundo_doc_averiado).2).
    vm_compute. reflexivity.
Defined.

(** C2, the claim as first stated, fails: for a name no author has,
    the search returns the empty list, the very result it gives for an
    author who has no books. *)
Lemma C2_counterexample :
  Ej3a1.buscar_libros_por_autor "Nadie" mundo_sql = (Devuelve [], mundo_sql)
  ∧ Ej3a1.buscar_libros_por_autor "Jorge Luis Borges" mundo_sql
    = (Devuelve [], mundo_sql)
  ∧ Ej3a4.buscar_libros_por_autor "Nadie" mundo_doc
    = (Devuelve [],
       Mundo (motor mundo_doc) ["No se encontró el autor: Nadie"]).
Proof. repeat split; vm_compute; reflexivity. Qed.

Lemma C2_witness :
  (∃ w', Ej3a1.buscar_libros_por_autor "Nadie" mundo_sql = (Devuelve [], w')
     ∧ Sqlite.disco (motor w') = Sqlite.disco (motor mundo_sql)
     ∧ Sqlite.pendiente (motor w') = Sqlite.pendiente (motor mundo_sql))
  ∧ (∃ w', Ej3a4.buscar_libros_por_autor "Nadie" mundo_doc = (Devuelve [], w')
       ∧ Mongo.col_autores (motor w') = Mongo.col_autores (motor mundo_doc)
       ∧ Mongo.col_libros (motor w') = Mongo.col_libros (motor mundo_doc)).
Proof.
  split.
  - apply (proj1 C2_autor_inexistente_lista_vacia mundo_sql "Nadie").
    intros t a [= <-] Ha. simpl in Ha.
    repeat (apply elem_of_cons in Ha as [->|Ha]; [discriminate|]).
    by apply elem_of_nil in Ha.
  - apply (proj2 C2_autor_inexistente_lista_vacia mundo_doc "Nadie").
    intros d Hd. by apply elem_of_nil in Hd.
Defined.


(** C4, the claim as first stated, fails: a database file that holds
    the sample library is replaced by the two empty tables of the
    script. *)
Lemma C4_counterexample :
  Ej3a2.crear_bd_desde_sql
    (Mundo (Ej3a2.Sistema (Some biblioteca) (Some script_tablas) []) [])
  = (Devuelve (Sqlite.Conexion tablas_vacias None []),
     Mundo (Ej3a2.Sistema (Some tablas_vacias) (Some script_tablas) []) [])
  ∧ tablas_vacias ≠ biblioteca.
Proof. split; [reflexivity|discriminate]. Qed.

Lemma C4_witness :
  Ej3a2.correr script_tablas Sqlite.bd_vacia = inr tablas_vacias
  ∧ Ej3a2.crear_bd_desde_sql
      (Mundo (Ej3a2.Sistema (Some biblioteca) (Some script_tablas) []) [])
    = (Devuelve (Sqlite.Conexion tablas_vacias None []),
       Mundo (Ej3a2.Sistema (Some tablas_vacias) (Some script_tablas) []) []).
Proof.
  split; [reflexivity|].
  apply (proj1 (proj2 C4_crear_bd_descarta_lo_anterior)
           (Some biblioteca) script_tablas tablas_vacias []).
  reflexivity.
Defined.



(** C6, the claim as first stated, fails: [obtener_libros] returns the
    books by id, Paula before Cien años de soledad, which is not the
    order of the titles. *)
Lemma C6_counterexample :
  Ej3a2.obtener_libros mundo_sql
  = (Devuelve [(1, "Paula", Some 1994, "Isabel Allende");
               (2, "Cien años de soledad", Some 1967, "Gabriel García Márquez")],
     mundo_sql)
  ∧ String.leb "Paula" "Cien años de soledad" = false.
Proof. split; vm_compute; reflexivity. Qed.

Lemma C6_witness :
  Sqlite.fallos (motor mundo_sql) = []
  ∧ Sqlite.sql_join (Sqlite.vista (motor mundo_sql))
    = inr [(Sqlite.Libro 1 "Paula" (Some 1994) (Some 2),
            Sqlite.Autor 2 "Isabel Allende");
           (Sqlite.Libro 2 "Cien años de soledad" (Some 1967) (Some 1),
            Sqlite.Autor 1 "Gabriel García Márquez")]
  ∧ (∃ orden,
       orden ≡ₚ [(Sqlite.Libro 1 "Paula" (Some 1994) (Some 2),
                  Sqlite.Autor 2 "Isabel Allende");
                 (Sqlite.Libro 2 "Cien años de soledad" (Some 1967) (Some 1),
                  Sqlite.Autor 1 "Gabriel García Márquez")]
       ∧ StronglySorted Sqlite.por_titulo orden
       ∧ ∀ s, Ej3a1.consultar_libros (Mundo (motor mundo_sql) s) =
                (Devuelve tt,
                 Mundo (motor mundo_sql)
                       (s ++ Ej3a1.cabecera :: (linea_par <$> orden))))
  ∧ (∃ orden,
       orden ≡ₚ [(Sqlite.Libro 1 "Paula" (Some 1994) (Some 2),
                  Sqlite.Autor 2 "Isabel Allende");
                 (Sqlite.Libro 2 "Cien años de soledad" (Some 1967) (Some 1),
                  Sqlite.Autor 1 "Gabriel García Márquez")]
       ∧ StronglySorted Sqlite.por_id orden
       ∧ ∀ s, Ej3a2.obtener_libros (Mundo (motor mundo_sql) s) =
                (Devuelve (tupla_par <$> orden), Mundo (motor mundo_sql) s)).
Proof.
  split; [reflexivity|]. split; [reflexivity|].
  apply (C6_listados_ordenados (motor mundo_sql)); reflexivity.
Defined.

Lemma C7_witness :
  Sqlite.fallos (motor mundo_sin_libros) = []
  ∧ ∃ w1,
      Ej3a1.crear_tablas mundo_sin_libros = (Devuelve tt, w1)
      ∧ Ej3a1.crear_tablas w1 = (Devuelve tt, w1)
      ∧ (∀ t, Sqlite.autores (Sqlite.vista (motor mundo_sin_libros)) = Some t →
              Sqlite.autores (Sqlite.vista (motor w1)) = Some t)
      ∧ (∀ t, Sqlite.libros (Sqlite.vista (motor mundo_sin_libros)) = Some t →
              Sqlite.libros (Sqlite.vista (motor w1)) = Some t).
Proof.
  split; [reflexivity|].
  apply (C7_crear_tablas_idempotente mundo_sin_libros). reflexivity.
Defined.



(** C9 on the document library: the listing is its header, and the
    search by name finds Paula. *)
Lemma C9_witness :
  Ej3a4.insertar_autores dos_autores mundo_doc
  = (Devuelve dos_ids, mundo_doc_autores)
  ∧ Ej3a4.insertar_libros dos_libros mundo_doc_autores
    = (Devuelve ["0000000000000000000003ea"; "0000000000000000000003eb"],
       mundo_doc_libros)
  ∧ Ej3a4.consultar_libros mundo_doc_libros
    = (Devuelve tt,
       Mundo (motor mundo_doc_libros)
             (salida mundo_doc_libros ++ [Ej3a4.cabecera]))
  ∧ ∃ res,
      Ej3a4.buscar_libros_por_autor "Isabel Allende" mundo_doc_libros
      = (Devuelve res, mundo_doc_libros)
      ∧ (Mongo.BString "Paula", Mongo.BInt 1994) ∈ res.
Proof.
  assert (Ej3a4.insertar_autores dos_autores mundo_doc
          = (Devuelve dos_ids, mundo_doc_autores)) as H1
    by (vm_compute; reflexivity).
  assert (Ej3a4.insertar_libros dos_libros mundo_doc_autores
          = (Devuelve ["0000000000000000000003ea"; "0000000000000000000003eb"],
             mundo_doc_libros)) as H2
    by (vm_compute; reflexivity).
  split; [exact H1|]. split; [exact H2|].
  destruct (C9_insertados_sin_listar_pero_hallados
              mundo_doc mundo_doc_autores mundo_doc_libros
              dos_autores dos_ids dos_libros
              ["0000000000000000000003ea"; "0000000000000000000003eb"])
    as [(nuevos & _ & _ & _ & _ & Hlistado) Hbuscar].
  - reflexivity.
  - intros a Ha. by apply elem_of_nil in Ha.
  - exact H1.
  - exact H2.
  - discriminate.
  - split; [by apply Hlistado|].
    apply (Hbuscar 1%nat "Isabel Allende" "0000000000000000000003e9" "Paula" 1994).
    + reflexivity.
    + reflexivity.
    + intros j Hj. assert (j = 0%nat) as -> by lia. discriminate.
    + intros d Hd. by apply elem_of_nil in Hd.
    + intros d Hd. by apply elem_of_nil in Hd.
    + right. left.
Defined.

End muestras.

(** ** The further properties at work on the sample states *)

Section muestras_de_altas.
Import Muestra.




Lemma buscar_libros_por_autor_exacto_testigo :
  ∃ res,
    Ej3a1.buscar_libros_por_autor "Isabel Allende" mundo_sql = (Devuelve res, mundo_sql)
    ∧ ∀ ti an,
        (ti, an) ∈ res ↔
        ∃ l a,
          l ∈ [Sqlite.Libro 1 "Paula" (Some 1994) (Some 2);
               Sqlite.Libro 2 "Cien años de soledad" (Some 1967) (Some 1)]
          ∧ a ∈ [Sqlite.Autor 1 "Gabriel García Márquez";
                 Sqlite.Autor 2 "Isabel Allende";
                 Sqlite.Autor 3 "Jorge Luis Borges"]
          ∧ Sqlite.l_autor_id l = Some (Sqlite.a_id a)
          ∧ Sqlite.a_nombre a = "Isabel Allende"
          ∧ Sqlite.l_titulo l = ti ∧ Sqlite.l_anio l = an.
Proof.
  apply (buscar_libros_por_autor_exacto mundo_sql "Isabel Allende"
           (Sqlite.Tabla
              [Sqlite.Libro 1 "Paula" (Some 1994) (Some 2);
               Sqlite.Libro 2 "Cien años de soledad" (Some 1967) (Some 1)] 2)
           (Sqlite.Tabla [Sqlite.Autor 1 "Gabriel García Márquez";
                          Sqlite.Autor 2 "Isabel Allende";
                          Sqlite.Autor 3 "Jorge Luis Borges"] 3));
    reflexivity.
Defined.


(** The caller has inserted an author and not yet committed. *)
Lemma ejemplo_transaccion_anidada_testigo :
  Ej3a1.ejemplo_transaccion
    (Mundo (Sqlite.Conexion tablas_vacias
              (Some (Sqlite.Bd (Some (Sqlite.Tabla [Sqlite.Autor 1 "Isabel Allende"] 1))
                               (Some (Sqlite.Tabla [] 0))))
              []) [])
  = (Devuelve tt,
     Mundo (Sqlite.Conexion tablas_vacias None [])
           ([] ++ ["Error en la transacción: cannot start a transaction within a transaction";
                   "Transacción revertida."])).
Proof.
  apply (ejemplo_transaccion_anidada
           (Mundo (Sqlite.Conexion tablas_vacias
                     (Some (Sqlite.Bd
                              (Some (Sqlite.Tabla [Sqlite.Autor 1 "Isabel Allende"] 1))
                              (Some (Sqlite.Tabla [] 0))))
                     []) [])
           (Sqlite.Bd (Some (Sqlite.Tabla [Sqlite.Autor 1 "Isabel Allende"] 1))
                      (Some (Sqlite.Tabla [] 0))));
    reflexivity.
Defined.



Lemma obtener_autores_ordenados_testigo :
  (∃ orden,
     orden ≡ₚ [Sqlite.Autor 1 "Gabriel García Márquez";
               Sqlite.Autor 2 "Isabel Allende";
               Sqlite.Autor 3 "Jorge Luis Borges"]
     ∧ StronglySorted Sqlite.autor_por_id orden
     ∧ Ej3a2.obtener_autores (Mundo (motor mundo_sql) []) =
         (Devuelve ((λ a, (Sqlite.a_id a, Sqlite.a_nombre a)) <$> orden),
          Mundo (motor mundo_sql) []))
  ∧ Ej3a2.obtener_autores
      (Mundo (Sqlite.Conexion Sqlite.bd_vacia None []) []) =
      (Devuelve [],
       Mundo (Sqlite.Conexion Sqlite.bd_vacia None [])
             ([] ++ ["Error al obtener autores: no such table: autores"])).
Proof.
  split.
  - apply (proj1 (proj2 obtener_autores_ordenados) (motor mundo_sql)
             (Sqlite.Tabla [Sqlite.Autor 1 "Gabriel García Márquez";
                            Sqlite.Autor 2 "Isabel Allende";
                            Sqlite.Autor 3 "Jorge Luis Borges"] 3) []);
      reflexivity.
  - apply (proj2 (proj2 obtener_autores_ordenados)
             (Sqlite.Conexion Sqlite.bd_vacia None []) []);
      reflexivity.
Defined.


Lemma integra_biblioteca : integra_conexion (motor mundo_sql).
Proof.
  split; [|done].
  split; intros t [= <-]; (split; [|intros x Hx; simpl in Hx;
    repeat (apply elem_of_cons in Hx as [->|Hx]; [simpl; lia|]);
    by apply elem_of_nil in Hx]).
  all: simpl; repeat (apply NoDup_cons; split;
         [rewrite ?not_elem_of_cons; repeat split; try lia; apply not_elem_of_nil|]).
  all: apply NoDup_nil_2.
Qed.

Lemma claves_primarias_unicas_testigo :
  integra_conexion (motor mundo_sql)
  ∧ integra_conexion
      (motor (Ej3a1.insertar_autores [Some "Julio Cortázar"] mundo_sql).2)
  ∧ integra_conexion (motor (Ej3a1.eliminar_libro 1 mundo_sql).2)
  ∧ integra_conexion (motor (Ej3a2.agregar_libro "Violeta" 2022 2 mundo_sql).2).
Proof.
  split; [apply integra_biblioteca|]. split; [|split].
  - eapply (proj1 (proj2 claves_primarias_unicas) [Some "Julio Cortázar"] mundo_sql);
      [apply integra_biblioteca|].
    apply surjective_pairing.
  - eapply (proj1 (proj2 (proj2 (proj2 (proj2 (proj2 (proj2 claves_primarias_unicas))))))
              1 mundo_sql);
      [apply integra_biblioteca|].
    apply surjective_pairing.
  - eapply (proj1 (proj2 (proj2 (proj2 (proj2 (proj2 (proj2 (proj2
              (proj2 claves_primarias_unicas))))))))
              "Violeta" 2022 2 mundo_sql);
      [apply integra_biblioteca|].
    apply surjective_pairing.
Defined.


Lemma insertar_autores_doc_agrega_testigo :
  ∃ ids nuevos w',
    Ej3a4.insertar_autores dos_autores mundo_doc = (Devuelve ids, w')
    ∧ Mongo.col_autores (motor w') = Mongo.col_autores (motor mundo_doc) ++ nuevos
    ∧ Mongo.col_libros (motor w') = Mongo.col_libros (motor mundo_doc)
    ∧ Mongo.averias (motor w') = []
    ∧ salida w' = salida mundo_doc
        ++ ["Se insertaron " +:+ pretty (length dos_autores)
            +:+ " autores correctamente."]
    ∧ length ids = length dos_autores
    ∧ length nuevos = length dos_autores
    ∧ (∀ (i : nat) n, dos_autores !! i = Some n →
         nuevos !! i
           = Some {[ "_id" := Mongo.BObjectId
                                (Mongo.contador_oid (motor mundo_doc) + N.of_nat i);
                     "nombre" := Mongo.BString n ]}
         ∧ ids !! i
           = Some (Mongo.str_oid (Mongo.contador_oid (motor mundo_doc) + N.of_nat i)))
    ∧ fresco Mongo.Autores (motor w').
Proof.
  apply (insertar_autores_doc_agrega mundo_doc dos_autores);
    [reflexivity|discriminate|].
  intros d o Hin. by apply elem_of_nil in Hin.
Defined.



Lemma ejemplo_transaccion_doc_confirma_testigo :
  Ej3a4.ejemplo_transaccion mundo_doc =
    (Devuelve true,
     Mundo (Mongo.Base ([] ++ [autor_paz 1000]) ([] ++ [libro_paz 1000])
              None (1000 + 1 + 1) true [])
           ([] ++ ["Transacción completada: Se agregó 'Octavio Paz' y su libro."])).
Proof.
  apply (ejemplo_transaccion_doc_confirma mundo_doc); [reflexivity|reflexivity|..].
  - intros d Hin. by apply elem_of_nil in Hin.
  - intros d Hin. by apply elem_of_nil in Hin.
Defined.

Lemma ejemplo_transaccion_doc_commit_falla_testigo :
  Ej3a4.ejemplo_transaccion
    (Mundo (Mongo.Base [] [] None 1000 true [false; false; true]) [])
  = (Devuelve false,
     Mundo (Mongo.Base [] [] None (1000 + 1 + 1) true [])
           ([] ++ ["Transacción completada: Se agregó 'Octavio Paz' y su libro.";
                   "Error en la transacción: connection closed"])).
Proof.
  apply (ejemplo_transaccion_doc_commit_falla
           (Mundo (Mongo.Base [] [] None 1000 true [false; false; true]) []) []);
    [reflexivity|reflexivity|..].
  - intros d Hin. by apply elem_of_nil in Hin.
  - intros d Hin. by apply elem_of_nil in Hin.
Defined.



(** A script that inserts into a table it has not created. *)
Lemma crear_bd_desde_sql_script_falla_testigo :
  ∃ w',
    Ej3a2.crear_bd_desde_sql
      (Mundo (Ej3a2.Sistema (Some biblioteca)
                (Some [λ d, inr (Sqlite.sql_create_autores d);
                       λ _, Sqlite.sin_tabla "libros"]) []) [])
      = (Lanza (SqliteError OperationalError "no such table: libros"), w')
    ∧ salida w' = [] ++ ["Error al crear la base de datos: no such table: libros"].
Proof.
  apply (crear_bd_desde_sql_script_falla (Some biblioteca)
           [λ d, inr (Sqlite.sql_create_autores d); λ _, Sqlite.sin_tabla "libros"]
           OperationalError "no such table: libros" []).
  reflexivity.
Defined.

(** Of two authors called Ana the search takes the first: the book of
    the second is not returned. *)
Lemma buscar_doc_exacto_testigo :
  Ej3a4.buscar_libros_por_autor "Ana" MuestraDoc.mundo_homonimos =
    (Devuelve [(Mongo.BString "A", Mongo.BInt 2001)], MuestraDoc.mundo_homonimos).
Proof.
  etrans.
  - apply (buscar_doc_exacto MuestraDoc.mundo_homonimos "Ana" 0
             MuestraDoc.ana_1 (Mongo.BObjectId 1));
      [reflexivity|reflexivity|reflexivity|intros j a' Hj; lia|reflexivity|].
    intros l Hl _. simpl in Hl.
    repeat (apply elem_of_cons in Hl as [->|Hl];
            [split; eexists; reflexivity|]).
    by apply elem_of_nil in Hl.
  - vm_compute. reflexivity.
Defined.

Lemma buscar_doc_campo_ausente_testigo :
  ∃ campo,
    (campo = "titulo" ∨ campo = "anio")
    ∧ Ej3a4.buscar_libros_por_autor "Ana" MuestraDoc.mundo_sin_anio =
        (Devuelve [],
         Mundo (motor MuestraDoc.mundo_sin_anio)
               (salida MuestraDoc.mundo_sin_anio
                ++ ["Error al buscar libros por autor: '" +:+ campo +:+ "'"])).
Proof.
  apply (buscar_doc_campo_ausente MuestraDoc.mundo_sin_anio "Ana" 0
           MuestraDoc.ana_1 (Mongo.BObjectId 1) MuestraDoc.libro_sin_anio);
    [reflexivity|reflexivity|reflexivity|intros j a' Hj; lia|reflexivity| |
     reflexivity|right; reflexivity].
  right. left.
Defined.

End muestras_de_altas.
